(** * Level Retest Scanner: the volatility estimator and the pattern scanner

    A shallow embedding of [atr] and [find_breakout_retests] of [app.py],
    and the properties of the two that the specification states.

    Python exceptions are an error monad, integer indices are [Z] (with
    pandas' wrap-around of negative positions in [iloc]), the numbers are
    an abstract type with the operations the code applies to them, and it
    is instantiated with binary64 ([PrimFloat]) and with the rationals.

    The rolling mean is embedded twice: [rolling_mean] sums each window
    afresh, which is its value in exact arithmetic, and [roll_mean] keeps
    the running sum of pandas, which is its value on binary64. *)

From Stdlib Require Import String.
From Stdlib Require Import List ZArith Lia Bool QArith Qabs Qminmax.
From Stdlib Require Import Floats.PrimFloat Numbers.Cyclic.Int63.Uint63.
From Stdlib Require Floats.FloatAxioms.
From Stdlib Require Import Sorted Permutation SetoidList PermutSetoid Lqa.
Import ListNotations.

Set Implicit Arguments.
Local Open Scope Z_scope.

(** ** Exceptions *)

Inductive exn : Type :=
| IndexError   (* a position outside a Series *)
| ValueError.  (* a rolling window that pandas refuses *)

Inductive result (A : Type) : Type :=
| Ok (a : A)
| Raise (e : exn).

Arguments Ok {A} a.
Arguments Raise {A} e.

Definition bind {A B : Type} (m : result A) (k : A -> result B) : result B :=
  match m with
  | Ok a => k a
  | Raise e => Raise e
  end.

Declare Scope py_scope.
Delimit Scope py_scope with py.
Notation "x <- m ;; k" := (bind m (fun x => k))
  (at level 61, m at next level, right associativity) : py_scope.
Local Open Scope py_scope.

(** ** Numbers

    The operations the two functions apply to prices.  [of_int] is the
    conversion of a Python integer ([1 + tolerance_pct], the number of
    observations of a rolling mean, the literals [1.0] and [100.0]). *)

Class Number (F : Type) : Type := {
  nadd : F -> F -> F;
  nsub : F -> F -> F;
  nmul : F -> F -> F;
  ndiv : F -> F -> F;
  nabs : F -> F;
  nlt : F -> F -> bool;
  nle : F -> F -> bool;
  of_int : Z -> F
}.

Declare Scope num_scope.
Delimit Scope num_scope with num.
Infix "+" := nadd : num_scope.
Infix "-" := nsub : num_scope.
Infix "*" := nmul : num_scope.
Infix "/" := ndiv : num_scope.
Infix "<?" := nlt : num_scope.
Infix "<=?" := nle : num_scope.
Notation "x >=? y" := (nle y x) (at level 70, only parsing) : num_scope.

(** Python's [max(x, y)]: the second argument wins only when it is
    strictly greater. *)
Definition py_max {F} `{Number F} (x y : F) : F :=
  if (x <? y)%num then y else x.

(** Binary64, the type of the prices in the program. *)
Definition float_of_int (z : Z) : float :=
  if z <? 0 then PrimFloat.opp (PrimFloat.of_uint63 (Uint63.of_Z (- z)))
  else PrimFloat.of_uint63 (Uint63.of_Z z).

#[export] Instance float_Number : Number float := {
  nadd := PrimFloat.add;
  nsub := PrimFloat.sub;
  nmul := PrimFloat.mul;
  ndiv := PrimFloat.div;
  nabs := PrimFloat.abs;
  nlt := PrimFloat.ltb;
  nle := PrimFloat.leb;
  of_int := float_of_int
}.

(** Exact arithmetic, where rounding plays no role. *)
#[export] Instance Q_Number : Number Q := {
  nadd := Qplus;
  nsub := Qminus;
  nmul := Qmult;
  ndiv := Qdiv;
  nabs := Qabs;
  nlt := fun x y => negb (Qle_bool y x);
  nle := Qle_bool;
  of_int := inject_Z
}.

(** ** Series and frames *)

(** [range(lo, hi)]. *)
Definition py_range (lo hi : Z) : list Z :=
  map (fun n => lo + Z.of_nat n) (seq 0 (Z.to_nat (hi - lo))).

Definition len {A} (s : list A) : Z := Z.of_nat (length s).

(** [s.iloc[k]]: a position below zero counts from the end, a position
    outside the series raises. *)
Definition iloc {A} (s : list A) (k : Z) : result A :=
  if (k <? - len s) || (len s <=? k) then Raise IndexError
  else match nth_error s (Z.to_nat (if k <? 0 then len s + k else k)) with
       | Some x => Ok x
       | None => Raise IndexError
       end.

(** One row of the frame. *)
Record Bar (F T : Type) : Type := {
  Timestamp : T;
  Open : F;
  High : F;
  Low : F;
  Close : F;
  Volume : F
}.

Definition DataFrame (F T : Type) : Type := list (Bar F T).

(** The first matching position of a [for ... if ...: break] loop. *)
Fixpoint first_hit (p : Z -> result bool) (l : list Z) : result (option Z) :=
  match l with
  | [] => Ok None
  | x :: rest =>
      b <- p x ;;
      if b then Ok (Some x) else first_hit p rest
  end.

(** A [for] loop that threads a value through its body. *)
Fixpoint for_each {S} (l : list Z) (body : S -> Z -> result S) (s : S) : result S :=
  match l with
  | [] => Ok s
  | x :: rest => s' <- body s x ;; for_each rest body s'
  end.

(** ** The volatility estimator *)

Section Estimator.
Context {F : Type} {num : Number F} {T : Type}.

(** A series in which a position may hold no value (pandas' NaN). *)
Definition Series : Type := list (option F).

(** [s.shift(1)]: every value moves one position down, the first
    position is left without a value and the last value is dropped. *)
Definition shift1 (s : list F) : Series :=
  match s with
  | [] => []
  | _ :: _ => None :: map Some (removelast s)
  end.

(** [(x - y).abs()], position by position. *)
Fixpoint abs_diff (x : list F) (y : Series) : Series :=
  match x, y with
  | a :: x', Some b :: y' => Some (nabs (a - b)%num) :: abs_diff x' y'
  | _ :: x', None :: y' => None :: abs_diff x' y'
  | _, _ => []
  end.

(** [pd.concat([c1, c2, c3], axis=1)]: the rows of the three columns. *)
Fixpoint concat3 (c1 c2 c3 : Series) : list (list (option F)) :=
  match c1, c2, c3 with
  | a :: c1', b :: c2', c :: c3' => [a; b; c] :: concat3 c1' c2' c3'
  | _, _, _ => []
  end.

(** [.max(axis=1)] of one row: positions without a value are skipped. *)
Fixpoint row_max (acc : option F) (row : list (option F)) : option F :=
  match row with
  | [] => acc
  | None :: row' => row_max acc row'
  | Some v :: row' =>
      row_max (match acc with
               | None => Some v
               | Some m => Some (if (m <? v)%num then v else m)
               end) row'
  end.

Definition true_range (df : DataFrame F T) : Series :=
  let high := map (@High F T) df in
  let low := map (@Low F T) df in
  let close := map (@Close F T) df in
  let prev_close := shift1 close in
  map (row_max None)
      (concat3 (abs_diff high (map Some low))
               (abs_diff high prev_close)
               (abs_diff low prev_close)).

(** The observations of a window: its positions that hold a value. *)
Fixpoint observations (w : Series) : list F :=
  match w with
  | [] => []
  | Some v :: w' => v :: observations w'
  | None :: w' => observations w'
  end.

(** The sum of the observations.  pandas keeps it up to date as the window
    slides; in exact arithmetic that is this sum, and on binary64 it is
    this sum up to the rounding of the additions. *)
Definition total (xs : list F) : F := fold_left nadd xs (of_int 0).

(** The mean of a window under [min_periods=1]: a window without an
    observation has no mean. *)
Definition window_mean (w : Series) : option F :=
  match observations w with
  | [] => None
  | xs => Some (total xs / of_int (len xs))%num
  end.

(** The last [n] values of a list. *)
Definition lastn {A} (n : nat) (l : list A) : list A :=
  skipn (length l - n) l.

(** [s.rolling(n, min_periods=1).mean()] as a sliding window: each value
    enters the window, and the oldest one leaves once the window holds
    more than [n].  The mean of each window is summed afresh here, which
    is the value of pandas in exact arithmetic; the running sum that
    pandas keeps on binary64 is [roll_mean] below. *)
Fixpoint rolling_mean (n : nat) (window : Series) (s : Series) : Series :=
  match s with
  | [] => []
  | x :: rest =>
      let window' := lastn n (window ++ [x]) in
      window_mean window' :: rolling_mean n window' rest
  end.

(** [atr(df, n)].  pandas refuses a window below [min_periods]. *)
Definition atr (df : DataFrame F T) (n : Z) : result Series :=
  if n <? 1 then Raise ValueError
  else Ok (rolling_mean (Z.to_nat n) [] (true_range df)).

(** *** The estimator as the specification words it *)

(** The value of a series at a position inside it. *)
Definition at_pos (s : list F) (k : Z) : F := nth (Z.to_nat k) s (of_int 0).

(** The true range of bar [k]: the two terms on the previous close do not
    take part at bar 0. *)
Definition TR (df : DataFrame F T) (k : Z) : F :=
  let high := map (@High F T) df in
  let low := map (@Low F T) df in
  let close := map (@Close F T) df in
  if k =? 0 then nabs (at_pos high 0 - at_pos low 0)%num
  else py_max (py_max (nabs (at_pos high k - at_pos low k)%num)
                      (nabs (at_pos high k - at_pos close (k - 1))%num))
              (nabs (at_pos low k - at_pos close (k - 1))%num).

(** The arithmetic mean of a list of values. *)
Definition mean (xs : list F) : F := (total xs / of_int (len xs))%num.

(** The mean of the true range over the bars [max(0, k-W+1) .. k]. *)
Definition rolling_TR_mean (df : DataFrame F T) (W k : Z) : F :=
  mean (map (TR df) (py_range (Z.max 0 (k - W + 1)) (k + 1))).

End Estimator.

Arguments Series : clear implicits.

(** ** The pattern scanner *)

(** One row of the returned frame; [level_of] is its column [level]. *)
Record Event (F T : Type) : Type := {
  breakout_time : T;
  retest_time : T;
  takeoff_time : T;
  level_of : F;
  close_at_takeoff : F;
  return_from_level_pct : F;
  bars_to_retest : Z;
  bars_to_takeoff : Z;
  atr_at_takeoff : option F
}.

Section Scanner.
Context {F : Type} {num : Number F} {T : Type}.

Variable df : DataFrame F T.
Variable level : F.
Variable tolerance_pct : F.
Variable max_retest_window : Z.
Variable takeoff_window : Z.
Variable takeoff_pct : F.
Variable use_atr : bool.
Variable atr_mult : F.

Definition close : list F := map (@Close F T) df.
Definition low : list F := map (@Low F T) df.
Definition high : list F := map (@High F T) df.
Definition index : list T := map (@Timestamp F T) df.

(** [close.iloc[i-1] < level <= close.iloc[i]]; the second comparison is
    evaluated only when the first holds. *)
Definition is_breakout (i : Z) : result bool :=
  c0 <- iloc close (i - 1) ;;
  if (c0 <? level)%num then
    c1 <- iloc close i ;;
    Ok (level <=? c1)%num
  else Ok false.

Definition tol_up : F := (level * (of_int 1 + tolerance_pct))%num.
Definition tol_dn : F := (level * (of_int 1 - tolerance_pct))%num.

(** The test of the retest loop at bar [j]. *)
Definition retest_at (j : Z) : result bool :=
  lo <- iloc low j ;;
  if (lo <=? tol_up)%num then
    hi <- iloc high j ;;
    if (hi >=? tol_dn)%num then
      c <- iloc close j ;;
      Ok (c >=? level)%num
    else Ok false
  else Ok false.

Definition find_retest (breakout_idx : Z) : result (option Z) :=
  let end_rt := Z.min (len df - 1) (breakout_idx + max_retest_window) in
  first_hit retest_at (py_range (breakout_idx + 1) (end_rt + 1)).

(** The threshold of the takeoff loop at bar [k].  [max(threshold, nan)]
    is [threshold]. *)
Definition threshold_at (a : Series F) (k : Z) : result F :=
  let threshold := (level * (of_int 1 + takeoff_pct))%num in
  if use_atr then
    ak <- iloc a k ;;
    match ak with
    | Some v => Ok (py_max threshold (level + atr_mult * v)%num)
    | None => Ok threshold
    end
  else Ok threshold.

Definition takeoff_at (a : Series F) (k : Z) : result bool :=
  threshold <- threshold_at a k ;;
  c <- iloc close k ;;
  Ok (c >=? threshold)%num.

Definition find_takeoff (a : Series F) (retest_idx : Z) : result (option Z) :=
  let end_to := Z.min (len df - 1) (retest_idx + takeoff_window) in
  first_hit (takeoff_at a) (py_range (retest_idx + 1) (end_to + 1)).

(** The three indices of the candidate that opens at bar [i], when it
    reaches its takeoff. *)
Definition detect (a : Series F) (i : Z) : result (option (Z * Z * Z)) :=
  b <- is_breakout i ;;
  if b then
    let breakout_idx := i in
    r <- find_retest breakout_idx ;;
    match r with
    | None => Ok None
    | Some retest_idx =>
        t <- find_takeoff a retest_idx ;;
        match t with
        | None => Ok None
        | Some takeoff_idx => Ok (Some (breakout_idx, retest_idx, takeoff_idx))
        end
    end
  else Ok None.

(** The row appended for a completed candidate. *)
Definition make_event (a : Series F) (breakout_idx retest_idx takeoff_idx : Z)
  : result (Event F T) :=
  c <- iloc close takeoff_idx ;;
  let ret := (c / level - of_int 1)%num in
  bt <- iloc index breakout_idx ;;
  rt <- iloc index retest_idx ;;
  tt <- iloc index takeoff_idx ;;
  c' <- iloc close takeoff_idx ;;
  at' <- iloc a takeoff_idx ;;
  Ok {| breakout_time := bt;
        retest_time := rt;
        takeoff_time := tt;
        level_of := level;
        close_at_takeoff := c';
        return_from_level_pct := (ret * of_int 100)%num;
        bars_to_retest := retest_idx - breakout_idx;
        bars_to_takeoff := takeoff_idx - retest_idx;
        atr_at_takeoff := at' |}.

(** One iteration of the outer loop. *)
Definition scan_bar (a : Series F) (results : list (Event F T)) (i : Z)
  : result (list (Event F T)) :=
  d <- detect a i ;;
  match d with
  | None => Ok results
  | Some (breakout_idx, retest_idx, takeoff_idx) =>
      ev <- make_event a breakout_idx retest_idx takeoff_idx ;;
      Ok (results ++ [ev])
  end.

Definition find_breakout_retests : result (list (Event F T)) :=
  a <- atr df 14 ;;
  for_each (py_range 1 (len df)) (scan_bar a) [].

(** *** The conditions of the two searches as the specification words them *)

Definition breakout_cond (i : Z) : bool :=
  (at_pos close (i - 1) <? level)%num && (level <=? at_pos close i)%num.

Definition retest_cond (j : Z) : bool :=
  (at_pos low j <=? tol_up)%num && (at_pos high j >=? tol_dn)%num
  && (at_pos close j >=? level)%num.

Definition threshold (k : Z) : F :=
  if use_atr
  then py_max (level * (of_int 1 + takeoff_pct))%num
              (level + atr_mult * rolling_TR_mean df 14 k)%num
  else (level * (of_int 1 + takeoff_pct))%num.

Definition takeoff_cond (k : Z) : bool := (at_pos close k >=? threshold k)%num.

(** What the three indices of a completed candidate satisfy. *)
Definition completed (i breakout_idx retest_idx takeoff_idx : Z) : Prop :=
  breakout_idx = i
  /\ breakout_cond breakout_idx = true
  /\ (breakout_idx + 1 <= retest_idx
        <= Z.min (len df - 1) (breakout_idx + max_retest_window)
      /\ retest_cond retest_idx = true
      /\ forall x, breakout_idx + 1 <= x < retest_idx -> retest_cond x = false)
  /\ (retest_idx + 1 <= takeoff_idx
        <= Z.min (len df - 1) (retest_idx + takeoff_window)
      /\ takeoff_cond takeoff_idx = true
      /\ forall x, retest_idx + 1 <= x < takeoff_idx -> takeoff_cond x = false).

(** The rows that the candidates opened at the bars [l] append, in the
    order of the bars. *)
Definition events_of (a : Series F) (l : list Z) : list (Event F T) :=
  flat_map (fun i =>
              match detect a i with
              | Ok (Some (breakout_idx, retest_idx, takeoff_idx)) =>
                  match make_event a breakout_idx retest_idx takeoff_idx with
                  | Ok ev => [ev]
                  | Raise _ => []
                  end
              | _ => []
              end) l.

End Scanner.

(** ** The display inversion *)

(** The sign change of [-series]. *)
Class Negation (F : Type) : Type := { nneg : F -> F }.

#[export] Instance float_Negation : Negation float := { nneg := PrimFloat.opp }.
#[export] Instance Q_Negation : Negation Q := { nneg := Qopp }.

Section Inversion.
Context {F : Type} {num : Number F} {neg : Negation F}.

(** The values in ascending order. *)
Fixpoint insert_sorted (x : F) (l : list F) : list F :=
  match l with
  | [] => [x]
  | y :: l' => if (x <=? y)%num then x :: l else y :: insert_sorted x l'
  end.

Fixpoint sort_values (l : list F) : list F :=
  match l with
  | [] => []
  | x :: l' => insert_sorted x (sort_values l')
  end.

(** [series.median()]: the middle of the observations in ascending order,
    the mean of the two middle ones when their number is even, and no
    value when there is no observation. *)
Definition median (series : Series F) : option F :=
  let xs := sort_values (observations series) in
  let n := length xs in
  match n with
  | O => None
  | _ =>
      if Nat.odd n then Some (nth (n / 2) xs (of_int 0))
      else Some ((nth (n / 2 - 1) xs (of_int 0) + nth (n / 2) xs (of_int 0))
                 / of_int 2)%num
  end.

(** [med + (med - series)], position by position; a position without a
    value stays without one, and so does every position when there is no
    median. *)
Definition mirror (med : option F) (series : Series F) : Series F :=
  map (fun ox =>
         match med, ox with
         | Some m, Some x => Some (m + (m - x))%num
         | _, _ => None
         end) series.

Definition invert_series (series : Series F) (method : String.string) : Series F :=
  if String.eqb method "negate"%string then map (option_map nneg) series
  else
    let med := median series in
    mirror med series.

End Inversion.

(** ** The estimator as pandas computes it

    [rolling(n, min_periods=1).mean()] does not sum each window afresh: it
    replaces infinite values by missing ones, and then keeps one running
    sum, with Kahan compensation, to which each value is added as it
    enters the window and from which it is subtracted as it leaves.  In
    exact arithmetic this is the mean of the window; on binary64 it can
    differ from the mean summed afresh in the last place. *)

(** What the window code asks of a value besides arithmetic. *)
Class Predicates (F : Type) : Type := {
  neqb : F -> F -> bool;    (* [x == y] *)
  nisinf : F -> bool;       (* [np.isinf(x)] *)
  nsignbit : F -> bool      (* [signbit(x)] *)
}.

#[export] Instance float_Predicates : Predicates float := {
  neqb := PrimFloat.eqb;
  nisinf := PrimFloat.is_infinity;
  nsignbit := PrimFloat.get_sign
}.

#[export] Instance Q_Predicates : Predicates Q := {
  neqb := Qeq_bool;
  nisinf := fun _ => false;
  nsignbit := fun x => negb (Qle_bool 0 x)
}.

(** The variables of [roll_mean]. *)
Record MeanState (F : Type) : Type := {
  nobs : Z;
  sum_x : F;
  neg_ct : Z;
  compensation_add : F;
  compensation_remove : F;
  num_consecutive_same_value : Z;
  prev_value : option F
}.

Section PandasEstimator.
Context {F : Type} {num : Number F} {neg : Negation F} {ins : Predicates F} {T : Type}.

(** The conversion of infinite values to missing ones before the window
    code runs. *)
Definition prep_values (values : Series F) : Series F :=
  map (fun ox =>
         match ox with
         | Some v => if nisinf v then None else Some v
         | None => None
         end) values.

Definition value_at (values : Series F) (j : Z) : option F :=
  nth (Z.to_nat j) values None.

(** The state at the start of a window that shares no value with the one
    before. *)
Definition setup (first : option F) : MeanState F :=
  {| nobs := 0;
     sum_x := of_int 0;
     neg_ct := 0;
     compensation_add := of_int 0;
     compensation_remove := of_int 0;
     num_consecutive_same_value := 0;
     prev_value := first |}.

(** [add_mean]: a value enters the window.  A missing value and a NaN
    ([val != val]) leave the state as it is. *)
Definition add_mean (val : option F) (st : MeanState F) : MeanState F :=
  match val with
  | Some v =>
      if neqb v v then
        let y := (v - compensation_add st)%num in
        let t := (sum_x st + y)%num in
        {| nobs := nobs st + 1;
           sum_x := t;
           neg_ct := if nsignbit v then neg_ct st + 1 else neg_ct st;
           compensation_add := (t - sum_x st - y)%num;
           compensation_remove := compensation_remove st;
           num_consecutive_same_value :=
             (if match prev_value st with
                 | Some p => neqb v p
                 | None => false
                 end
              then num_consecutive_same_value st + 1
              else 1);
           prev_value := Some v |}
      else st
  | None => st
  end.

(** [remove_mean]: a value leaves the window. *)
Definition remove_mean (val : option F) (st : MeanState F) : MeanState F :=
  match val with
  | Some v =>
      if neqb v v then
        let y := (nneg v - compensation_remove st)%num in
        let t := (sum_x st + y)%num in
        {| nobs := nobs st - 1;
           sum_x := t;
           neg_ct := if nsignbit v then neg_ct st - 1 else neg_ct st;
           compensation_add := compensation_add st;
           compensation_remove := (t - sum_x st - y)%num;
           num_consecutive_same_value := num_consecutive_same_value st;
           prev_value := prev_value st |}
      else st
  | None => st
  end.

(** [calc_mean]: the value written for the window.  A window whose
    observations are all the last value added gets that value, and a
    result on the wrong side of zero is set to zero. *)
Definition calc_mean (minp : Z) (st : MeanState F) : option F :=
  if (minp <=? nobs st) && (0 <? nobs st) then
    let result := (sum_x st / of_int (nobs st))%num in
    if nobs st <=? num_consecutive_same_value st then prev_value st
    else if (neg_ct st =? 0) && (result <? of_int 0)%num then Some (of_int 0)
    else if (neg_ct st =? nobs st) && (of_int 0 <? result)%num then Some (of_int 0)
    else Some result
  else None.

(** The first position of the window that ends at position [i]. *)
Definition window_start (n i : Z) : Z := Z.max 0 (i + 1 - n).

(** One turn of the loop of [roll_mean]: the state for the window of
    position [i], which is [window_start n i .. i].  The window is set up
    afresh at position 0 and when it starts where the one before ended;
    otherwise the values that left are removed from the running sum and
    the new one is added. *)
Definition slide (values : Series F) (n i : Z) (st : MeanState F) : MeanState F :=
  let s := window_start n i in
  let e := i + 1 in
  if (i =? 0) || (i <=? s) then
    fold_left (fun st j => add_mean (value_at values j) st)
      (py_range s e) (setup (value_at values s))
  else
    let st1 :=
      fold_left (fun st j => remove_mean (value_at values j) st)
        (py_range (window_start n (i - 1)) s) st in
    fold_left (fun st j => add_mean (value_at values j) st) (py_range i e) st1.

Fixpoint roll_mean_loop (values : Series F) (n minp : Z) (positions : list Z)
  (st : MeanState F) : Series F :=
  match positions with
  | [] => []
  | i :: rest =>
      let st' := slide values n i st in
      calc_mean minp st' :: roll_mean_loop values n minp rest st'
  end.

Definition roll_mean (values : Series F) (n minp : Z) : Series F :=
  roll_mean_loop values n minp (py_range 0 (len values)) (setup None).

(** [atr(df, n)] with the rolling mean as pandas computes it. *)
Definition atr_pandas (df : DataFrame F T) (n : Z) : result (Series F) :=
  if n <? 1 then Raise ValueError
  else Ok (roll_mean (prep_values (true_range df)) n 1).

(** [find_breakout_retests] on that series: the scan as it runs on
    binary64.  It differs from [find_breakout_retests] above in the series
    [a] alone. *)
Definition find_breakout_retests_pandas (df : DataFrame F T) (level tolerance_pct : F)
  (max_retest_window takeoff_window : Z) (takeoff_pct : F) (use_atr : bool)
  (atr_mult : F) : result (list (Event F T)) :=
  a <- atr_pandas df 14 ;;
  for_each (py_range 1 (len df))
    (scan_bar df level tolerance_pct max_retest_window takeoff_window takeoff_pct
       use_atr atr_mult a) [].

End PandasEstimator.

(** The state of [roll_mean] after the turn of position [i] when the
    arithmetic is exact and the values are those of [g], none of them
    negative: the running sum is the sum of the window
    [window_start n i .. i], both compensations are zero, and the last
    [num_consecutive_same_value] values are equal. *)
Definition exact_state (g : Z -> Q) (n i : Z) (st : MeanState Q) : Prop :=
  nobs st = i + 1 - window_start n i
  /\ (sum_x st == fold_right Qplus 0 (map g (py_range (window_start n i) (i + 1))))%Q
  /\ neg_ct st = 0
  /\ (compensation_add st == 0)%Q
  /\ (compensation_remove st == 0)%Q
  /\ prev_value st = Some (g i)
  /\ 1 <= num_consecutive_same_value st <= i + 1
  /\ forall j, i + 1 - num_consecutive_same_value st <= j <= i -> (g j == g i)%Q.

(** Two positions hold the same value, or both hold none. *)
Definition same_value (x y : option Q) : Prop :=
  match x, y with
  | Some a, Some b => (a == b)%Q
  | None, None => True
  | _, _ => False
  end.

(** A close that rises to five times its median. *)
Definition spike_closes : Series Q := [Some 1; Some 2; None; Some 10]%Q.

(** ** Scenarios

    Frames on which the properties below are run.  Scenario A of the
    specification fixes the closes and the range of bar 2; the other
    fields are filled in here. *)

Set Warnings "-inexact-float".

Definition bar {F : Type} (t : Z) (h l c : F) : Bar F Z :=
  {| Timestamp := t; Open := c; High := h; Low := l; Close := c; Volume := c |}.

Definition scenario_A : DataFrame float Z :=
  [ bar 10 99.5 98.5 99;
    bar 11 101.5 99 101;
    bar 12 100.05 99.9 100.2;
    bar 13 100.7 100.1 100.6 ]%float.

(** Scenario A in exact arithmetic. *)
Definition scenario_A_exact : DataFrame Q Z :=
  [ bar 10 99.5 98.5 99;
    bar 11 101.5 99 101;
    bar 12 100.05 99.9 100.2;
    bar 13 100.7 100.1 100.6 ]%Q.

(** The row that scenario A returns on binary64. *)
Definition scenario_A_event : Event float Z :=
  {| breakout_time := 11;
     retest_time := 12;
     takeoff_time := 13;
     level_of := 100%float;
     close_at_takeoff := 100.6%float;
     return_from_level_pct := 0x1.3333333333338p-1%float;
     bars_to_retest := 1;
     bars_to_takeoff := 1;
     atr_at_takeoff := Some 0x1.4ccccccccccd0p+0%float |}.

(** Scenario B: scenario A with bar 2 closing at 99.8, below the level. *)
Definition scenario_B : DataFrame float Z :=
  [ bar 10 99.5 98.5 99;
    bar 11 101.5 99 101;
    bar 12 100.05 99.9 99.8;
    bar 13 100.7 100.1 100.6 ]%float.

(** Scenario C: a flat series below the level. *)
Definition scenario_C : DataFrame float Z :=
  [ bar 10 99.5 98.5 99;
    bar 11 99.5 98.5 99;
    bar 12 99.5 98.5 99 ]%float.

(** A frame of eighteen bars, so that a window of 14 bars has slid by the
    takeoff: the close crosses the level at bar 14, holds it at bar 15 and
    takes off at bar 16.  The first three bars have a range of 3. *)
Definition long_frame : DataFrame float Z :=
  [ bar 10 99.5 96.5 98;
    bar 11 99 96 97;
    bar 12 98.5 95.5 97.5;
    bar 13 98.2 97.4 98;
    bar 14 98.6 97.9 98.3;
    bar 15 98.9 98.1 98.7;
    bar 16 99.1 98.3 98.6;
    bar 17 99 98.4 98.8;
    bar 18 99.2 98.5 99;
    bar 19 99.4 98.7 99.1;
    bar 20 99.5 98.8 99.3;
    bar 21 99.6 98.9 99.2;
    bar 22 99.7 99 99.4;
    bar 23 99.8 99.1 99;
    bar 24 101.5 99 101;
    bar 25 100.05 99.9 100.2;
    bar 26 101.3 100.1 101.2;
    bar 27 101.4 100.9 101.3 ]%float.

(** The same frame in exact arithmetic. *)
Definition long_frame_exact : DataFrame Q Z :=
  [ bar 10 99.5 96.5 98;
    bar 11 99 96 97;
    bar 12 98.5 95.5 97.5;
    bar 13 98.2 97.4 98;
    bar 14 98.6 97.9 98.3;
    bar 15 98.9 98.1 98.7;
    bar 16 99.1 98.3 98.6;
    bar 17 99 98.4 98.8;
    bar 18 99.2 98.5 99;
    bar 19 99.4 98.7 99.1;
    bar 20 99.5 98.8 99.3;
    bar 21 99.6 98.9 99.2;
    bar 22 99.7 99 99.4;
    bar 23 99.8 99.1 99;
    bar 24 101.5 99 101;
    bar 25 100.05 99.9 100.2;
    bar 26 101.3 100.1 101.2;
    bar 27 101.4 100.9 101.3 ]%Q.

(** The row that this frame returns on binary64 with the volatility gate
    on, at a multiple of 1.25. *)
Definition long_frame_event : Event float Z :=
  {| breakout_time := 24;
     retest_time := 25;
     takeoff_time := 26;
     level_of := 100%float;
     close_at_takeoff := 101.2%float;
     return_from_level_pct := 0x1.3333333333338p+0%float;
     bars_to_retest := 1;
     bars_to_takeoff := 1;
     atr_at_takeoff := Some 0x1.d07507507506ep-1%float |}.

(** Three bars at low prices, where the rounding of the running sum
    shows. *)
Definition small_prices : DataFrame float Z :=
  [ bar 10 1.32 1.02 1.17;
    bar 11 2.97 2.57 2.92;
    bar 12 2.8 2.6 2.6 ]%float.

(** A first bar with an infinite high. *)
Definition infinite_high : DataFrame float Z :=
  [ bar 10 infinity 1.3 1.3;
    bar 11 2.0 1.3 1.5 ]%float.

(** * Properties *)

(** ** Ranges, positions and loops *)

Lemma bind_Ok {A B} (m : result A) (k : A -> result B) (b : B) :
  bind m k = Ok b -> exists a, m = Ok a /\ k a = Ok b.
Proof. destruct m as [a|e]; simpl; intros E; [eauto | discriminate]. Qed.

Lemma py_range_nil lo hi : hi <= lo -> py_range lo hi = [].
Proof.
  intros L. unfold py_range.
  replace (Z.to_nat (hi - lo)) with 0%nat by lia. reflexivity.
Qed.

Lemma py_range_cons lo hi : lo < hi -> py_range lo hi = lo :: py_range (lo + 1) hi.
Proof.
  intros L. unfold py_range.
  replace (Z.to_nat (hi - lo)) with (S (Z.to_nat (hi - (lo + 1)))) by lia.
  simpl. f_equal; [lia|].
  rewrite <- seq_shift, map_map. apply map_ext. intros n. lia.
Qed.

Lemma py_range_length lo hi : length (py_range lo hi) = Z.to_nat (hi - lo).
Proof. unfold py_range. now rewrite length_map, length_seq. Qed.

Lemma In_py_range x lo hi : In x (py_range lo hi) <-> lo <= x < hi.
Proof.
  unfold py_range. rewrite in_map_iff. split.
  - intros (n & <- & I). apply in_seq in I. lia.
  - intros B. exists (Z.to_nat (x - lo)). split; [lia|]. apply in_seq. lia.
Qed.

Lemma nth_error_py_range lo hi n :
  (n < Z.to_nat (hi - lo))%nat -> nth_error (py_range lo hi) n = Some (lo + Z.of_nat n).
Proof.
  intros L. unfold py_range.
  rewrite nth_error_map, nth_error_seq.
  destruct (Nat.ltb_spec n (Z.to_nat (hi - lo))); [reflexivity | lia].
Qed.

Lemma len_map {A B} (f : A -> B) (s : list A) : len (map f s) = len s.
Proof. unfold len. now rewrite length_map. Qed.

Lemma len_nonneg {A} (s : list A) : 0 <= len s.
Proof. unfold len. lia. Qed.

(** Inside the series [iloc] reads the position and does not raise. *)
Lemma iloc_inside {A} (s : list A) (k : Z) (d : A) :
  0 <= k < len s -> iloc s k = Ok (nth (Z.to_nat k) s d).
Proof.
  intros B. unfold iloc.
  destruct (Z.ltb_spec k (- len s)); [lia|].
  destruct (Z.leb_spec (len s) k); [lia|]. simpl.
  destruct (Z.ltb_spec k 0); [lia|].
  destruct (nth_error s (Z.to_nat k)) eqn:E.
  - now rewrite (nth_error_nth _ _ d E).
  - apply nth_error_None in E. unfold len in B. lia.
Qed.

Lemma iloc_nth_error {A} (s : list A) (k : Z) (x : A) :
  0 <= k -> iloc s k = Ok x <-> nth_error s (Z.to_nat k) = Some x.
Proof.
  intros B. unfold iloc.
  destruct (Z.ltb_spec k (- len s)); [pose proof (len_nonneg s); lia|].
  destruct (Z.ltb_spec k 0); [lia|].
  destruct (Z.leb_spec (len s) k); simpl.
  - split; [discriminate|]. intros E.
    assert (nth_error s (Z.to_nat k) <> None) as N by congruence.
    apply nth_error_Some in N. unfold len in *. lia.
  - destruct (nth_error s (Z.to_nat k)); split; congruence.
Qed.

(** A search whose test does not raise on the range stops at the least
    position that passes the test, or at none when no position does. *)
Lemma first_hit_range (p : Z -> result bool) (q : Z -> bool) (lo hi : Z) :
  (forall x, lo <= x < hi -> p x = Ok (q x)) ->
  exists r, first_hit p (py_range lo hi) = Ok r /\
    match r with
    | Some j => lo <= j < hi /\ q j = true /\ forall x, lo <= x < j -> q x = false
    | None => forall x, lo <= x < hi -> q x = false
    end.
Proof.
  remember (Z.to_nat (hi - lo)) as n eqn:En.
  revert lo En. induction n as [|n IH]; intros lo En P.
  - rewrite py_range_nil by lia. exists None. split; [reflexivity|]. intros; lia.
  - rewrite py_range_cons by lia. simpl. rewrite (P lo) by lia. simpl.
    destruct (q lo) eqn:Q.
    + exists (Some lo). split; [reflexivity|]. repeat split; try lia; auto.
    + destruct (IH (lo + 1)) as (r & E & S); [lia | intros; apply P; lia |].
      exists r. split; [exact E|]. destruct r as [j|].
      * destruct S as (B & Qj & Lt). repeat split; try lia; auto.
        intros x Bx. destruct (Z.eq_dec x lo) as [->|]; [exact Q | apply Lt; lia].
      * intros x Bx. destruct (Z.eq_dec x lo) as [->|]; [exact Q | apply S; lia].
Qed.

(** ** The estimator *)

Section EstimatorFacts.
Context {F : Type} {num : Number F} {T : Type}.

Lemma length_shift1 (s : list F) : length (shift1 s) = length s.
Proof.
  destruct s as [|a s]; [reflexivity|].
  unfold shift1. cbn [length]. rewrite length_map, removelast_firstn_len, length_firstn.
  cbn [length]. lia.
Qed.

Lemma nth_error_shift1_first (s : list F) :
  s <> [] -> nth_error (shift1 s) 0 = Some None.
Proof. destruct s; [congruence | reflexivity]. Qed.

Lemma nth_error_shift1_next (s : list F) (k : nat) (x : F) :
  (S k < length s)%nat -> nth_error s k = Some x ->
  nth_error (shift1 s) (S k) = Some (Some x).
Proof.
  intros L E. destruct s as [|a s]; [simpl in L; lia|].
  unfold shift1. cbn [nth_error].
  rewrite nth_error_map, removelast_firstn_len, nth_error_firstn.
  destruct (Nat.ltb_spec k (Nat.pred (length (a :: s)))); [|simpl in *; lia].
  now rewrite E.
Qed.

Lemma length_abs_diff (x : list F) (y : Series F) :
  length (abs_diff x y) = Nat.min (length x) (length y).
Proof.
  revert y. induction x as [|a x IH]; intros [|[b|] y]; simpl; auto.
Qed.

Lemma nth_error_abs_diff (x : list F) (y : Series F) (k : nat) (a : F) (ob : option F) :
  nth_error x k = Some a -> nth_error y k = Some ob ->
  nth_error (abs_diff x y) k = Some (option_map (fun b => nabs (a - b)%num) ob).
Proof.
  revert y k. induction x as [|a' x IH]; intros y k Ex Ey.
  - destruct k; discriminate.
  - destruct y as [|ob' y]; [destruct k; discriminate|].
    destruct k as [|k]; simpl in Ex, Ey.
    + inversion Ex; inversion Ey; subst. now destruct ob.
    + destruct ob'; simpl; now apply IH.
Qed.

Lemma length_concat3 (c1 c2 c3 : Series F) :
  length (concat3 c1 c2 c3) = Nat.min (length c1) (Nat.min (length c2) (length c3)).
Proof.
  revert c2 c3. induction c1 as [|a c1 IH]; intros [|b c2] [|c c3]; simpl; auto.
Qed.

Lemma nth_error_concat3 (c1 c2 c3 : Series F) (k : nat) (a b c : option F) :
  nth_error c1 k = Some a -> nth_error c2 k = Some b -> nth_error c3 k = Some c ->
  nth_error (concat3 c1 c2 c3) k = Some [a; b; c].
Proof.
  revert c2 c3 k. induction c1 as [|a' c1 IH]; intros [|b' c2] [|c' c3] [|k] E1 E2 E3;
    try discriminate; simpl in *.
  - now inversion E1; inversion E2; inversion E3.
  - now apply IH.
Qed.

Lemma length_true_range (df : DataFrame F T) : length (true_range df) = length df.
Proof.
  unfold true_range.
  rewrite length_map, length_concat3, !length_abs_diff, length_shift1, !length_map. lia.
Qed.

Lemma nth_error_column {A} (f : Bar F T -> A) (df : DataFrame F T) (k : nat) (d : A) :
  (k < length df)%nat -> nth_error (map f df) k = Some (nth k (map f df) d).
Proof. intros L. apply nth_error_nth'. now rewrite length_map. Qed.

(** The true range computed on the columns is the one of the
    specification, bar by bar. *)
Lemma nth_error_true_range (df : DataFrame F T) (k : nat) :
  (k < length df)%nat ->
  nth_error (true_range df) k = Some (Some (TR df (Z.of_nat k))).
Proof.
  intros L. unfold true_range, TR, at_pos.
  rewrite nth_error_map.
  pose proof (nth_error_column (@High F T) df (of_int 0) L) as Eh.
  pose proof (nth_error_column (@Low F T) df (of_int 0) L) as El.
  assert (nth_error (map Some (map (@Low F T) df)) k
          = Some (Some (nth k (map (@Low F T) df) (of_int 0)))) as El'
    by (now rewrite nth_error_map, El).
  destruct k as [|k].
  - assert (map (@Close F T) df <> []) as Ne by (destruct df; [simpl in L; lia | discriminate]).
    pose proof (nth_error_shift1_first Ne) as Ep.
    rewrite (nth_error_concat3 _ _ _ _
               (nth_error_abs_diff _ _ _ Eh El')
               (nth_error_abs_diff _ _ _ Eh Ep)
               (nth_error_abs_diff _ _ _ El Ep)).
    reflexivity.
  - assert (k < length df)%nat as L' by lia.
    pose proof (nth_error_column (@Close F T) df (of_int 0) L') as Ec.
    assert (S k < length (map (@Close F T) df))%nat as Lc by (now rewrite length_map).
    pose proof (nth_error_shift1_next _ Lc Ec) as Ep.
    rewrite (nth_error_concat3 _ _ _ _
               (nth_error_abs_diff _ _ _ Eh El')
               (nth_error_abs_diff _ _ _ Eh Ep)
               (nth_error_abs_diff _ _ _ El Ep)).
    destruct (Z.eqb_spec (Z.of_nat (S k)) 0); [lia|].
    replace (Z.to_nat (Z.of_nat (S k))) with (S k) by lia.
    replace (Z.to_nat (Z.of_nat (S k) - 1)) with k by lia.
    reflexivity.
Qed.

Lemma lastn_nil {A} (n : nat) : lastn n (@nil A) = [].
Proof. reflexivity. Qed.

(** Pushing a value into the kept window is pushing it into the whole
    past. *)
Lemma lastn_push {A} (n : nat) (l : list A) (x : A) :
  lastn n (lastn n l ++ [x]) = lastn n (l ++ [x]).
Proof.
  unfold lastn. rewrite !length_app, length_skipn. cbn [length].
  destruct (Nat.le_gt_cases (length l) n) as [Le|Gt].
  - replace (length l - n)%nat with 0%nat by lia. simpl.
    now replace (length l - 0 + 1 - n)%nat with (length l + 1 - n)%nat by lia.
  - destruct n as [|n].
    + rewrite !skipn_all2; auto; rewrite ?length_app, ?length_skipn; simpl; lia.
    + rewrite !skipn_app, length_skipn, skipn_skipn.
      replace (length l - (length l - S n) + 1 - S n)%nat with 1%nat by lia.
      replace (1 + (length l - S n))%nat with (length l + 1 - S n)%nat by lia.
      replace (1 - (length l - (length l - S n)))%nat with 0%nat by lia.
      replace (length l + 1 - S n - length l)%nat with 0%nat by lia.
      reflexivity.
Qed.

Lemma length_rolling_mean (n : nat) (s window : Series F) :
  length (rolling_mean n window s) = length s.
Proof. revert window. induction s as [|x s IH]; intros window; simpl; auto. Qed.

(** Position [k] of the rolling mean is the mean of the last [n] values
    seen up to and including [k]. *)
Lemma nth_error_rolling_mean (n : nat) (s past : Series F) (k : nat) :
  (k < length s)%nat ->
  nth_error (rolling_mean n (lastn n past) s) k
  = Some (window_mean (lastn n (past ++ firstn (S k) s))).
Proof.
  revert past k. induction s as [|x s IH]; intros past k L; [simpl in L; lia|].
  cbn [rolling_mean]. rewrite lastn_push. destruct k as [|k].
  - reflexivity.
  - cbn [nth_error]. rewrite IH by (simpl in L; lia).
    now rewrite <- app_assoc.
Qed.

Lemma observations_all (g : Z -> F) (l : list Z) :
  observations (map (fun i => Some (g i)) l) = map g l.
Proof. induction l as [|i l IH]; simpl; congruence. Qed.

(** In a series that holds a value at every position, the last [n] values
    up to position [k] are those of the positions [max(0, k-n+1) .. k]. *)
Lemma window_positions (s : Series F) (g : Z -> F) (n k : nat) :
  (forall i, (i < length s)%nat -> nth_error s i = Some (Some (g (Z.of_nat i)))) ->
  (k < length s)%nat ->
  lastn n (firstn (S k) s)
  = map (fun i => Some (g i))
        (py_range (Z.max 0 (Z.of_nat k - Z.of_nat n + 1)) (Z.of_nat k + 1)).
Proof.
  intros P L. apply nth_error_ext. intros i.
  unfold lastn. rewrite nth_error_skipn, nth_error_firstn, length_firstn.
  replace (Nat.min (S k) (length s)) with (S k) by lia.
  remember (Z.max 0 (Z.of_nat k - Z.of_nat n + 1)) as lo eqn:Elo.
  rewrite nth_error_map.
  destruct (Nat.ltb_spec (S k - n + i) (S k)) as [Lt|Ge].
  - rewrite P by lia. rewrite nth_error_py_range by lia. cbn [option_map].
    do 3 f_equal. lia.
  - assert (nth_error (py_range lo (Z.of_nat k + 1)) i = None) as ->; [|reflexivity].
    apply nth_error_None. rewrite py_range_length. lia.
Qed.

(** The estimator does not raise for a window of at least one bar, its
    series is as long as the frame, and position [k] holds the mean of the
    true range over the bars [max(0, k-n+1) .. k]. *)
Lemma atr_series (df : DataFrame F T) (n : Z) :
  1 <= n ->
  exists a, atr df n = Ok a /\ len a = len df /\
    forall k, 0 <= k < len df -> iloc a k = Ok (Some (rolling_TR_mean df n k)).
Proof.
  intros Hn. unfold atr. destruct (Z.ltb_spec n 1); [lia|].
  eexists. split; [reflexivity|]. split.
  - unfold len. now rewrite length_rolling_mean, length_true_range.
  - intros k Bk. unfold len in Bk.
    apply iloc_nth_error; [lia|].
    rewrite <- (lastn_nil (Z.to_nat n)) at 1.
    rewrite nth_error_rolling_mean by (rewrite length_true_range; lia).
    cbn [app]. f_equal.
    rewrite (@window_positions (true_range df) (TR df)).
    + unfold window_mean. rewrite observations_all.
      unfold rolling_TR_mean, mean.
      replace (Z.of_nat (Z.to_nat k) - Z.of_nat (Z.to_nat n) + 1) with (k - n + 1) by lia.
      replace (Z.of_nat (Z.to_nat k) + 1) with (k + 1) by lia.
      destruct (map (TR df) (py_range (Z.max 0 (k - n + 1)) (k + 1))) eqn:E; [|reflexivity].
      apply (f_equal (@length F)) in E. rewrite length_map, py_range_length in E.
      simpl in E. lia.
    + intros i Li. rewrite length_true_range in Li. now apply nth_error_true_range.
    + rewrite length_true_range. lia.
Qed.

End EstimatorFacts.

(** ** The scanner *)

Section ScannerFacts.
Context {F : Type} {num : Number F} {T : Type}.

Variable df : DataFrame F T.
Variable level : F.
Variable tolerance_pct : F.
Variable max_retest_window : Z.
Variable takeoff_window : Z.
Variable takeoff_pct : F.
Variable use_atr : bool.
Variable atr_mult : F.

Local Abbreviation close := (close df).
Local Abbreviation low := (low df).
Local Abbreviation high := (high df).
Local Abbreviation index := (index df).
Local Abbreviation is_breakout := (is_breakout df level).
Local Abbreviation breakout_cond := (breakout_cond df level).
Local Abbreviation retest_at := (retest_at df level tolerance_pct).
Local Abbreviation retest_cond := (retest_cond df level tolerance_pct).
Local Abbreviation find_retest := (find_retest df level tolerance_pct max_retest_window).
Local Abbreviation threshold_at := (threshold_at level takeoff_pct use_atr atr_mult).
Local Abbreviation threshold := (threshold df level takeoff_pct use_atr atr_mult).
Local Abbreviation takeoff_at := (takeoff_at df level takeoff_pct use_atr atr_mult).
Local Abbreviation takeoff_cond := (takeoff_cond df level takeoff_pct use_atr atr_mult).
Local Abbreviation find_takeoff :=
  (find_takeoff df level takeoff_window takeoff_pct use_atr atr_mult).
Local Abbreviation detect :=
  (detect df level tolerance_pct max_retest_window takeoff_window takeoff_pct
     use_atr atr_mult).
Local Abbreviation completed :=
  (completed df level tolerance_pct max_retest_window takeoff_window takeoff_pct
     use_atr atr_mult).
Local Abbreviation make_event := (make_event df level).
Local Abbreviation events_of :=
  (events_of df level tolerance_pct max_retest_window takeoff_window takeoff_pct
     use_atr atr_mult).
Local Abbreviation scan_bar :=
  (scan_bar df level tolerance_pct max_retest_window takeoff_window takeoff_pct
     use_atr atr_mult).
Local Abbreviation find_breakout_retests :=
  (find_breakout_retests df level tolerance_pct max_retest_window takeoff_window
     takeoff_pct use_atr atr_mult).

Lemma iloc_close (k : Z) : 0 <= k < len df -> iloc close k = Ok (at_pos close k).
Proof. intros B. apply iloc_inside. unfold close. now rewrite len_map. Qed.

Lemma iloc_low (k : Z) : 0 <= k < len df -> iloc low k = Ok (at_pos low k).
Proof. intros B. apply iloc_inside. unfold low. now rewrite len_map. Qed.

Lemma iloc_high (k : Z) : 0 <= k < len df -> iloc high k = Ok (at_pos high k).
Proof. intros B. apply iloc_inside. unfold high. now rewrite len_map. Qed.

Lemma iloc_index (k : Z) : 0 <= k < len df -> exists t, iloc index k = Ok t.
Proof.
  intros B. destruct df as [|b0 df'] eqn:E; [unfold len in B; simpl in B; lia|].
  exists (nth (Z.to_nat k) index (Timestamp b0)). rewrite <- E in *.
  apply iloc_inside. unfold index. now rewrite len_map.
Qed.

(** Inside the frame the three tests read the bars they name and do not
    raise. *)
Lemma is_breakout_inside (i : Z) :
  1 <= i < len df -> is_breakout i = Ok (breakout_cond i).
Proof.
  intros B. unfold is_breakout, breakout_cond.
  rewrite iloc_close by lia. simpl.
  destruct (at_pos close (i - 1) <? level)%num; [|reflexivity].
  now rewrite iloc_close by lia.
Qed.

Lemma retest_at_inside (j : Z) :
  0 <= j < len df -> retest_at j = Ok (retest_cond j).
Proof.
  intros B. unfold retest_at, retest_cond.
  rewrite iloc_low by lia. simpl.
  destruct (at_pos low j <=? tol_up level tolerance_pct)%num; [|reflexivity].
  rewrite iloc_high by lia. simpl.
  destruct (tol_dn level tolerance_pct <=? at_pos high j)%num; [|reflexivity].
  now rewrite iloc_close by lia.
Qed.

Lemma threshold_at_inside (a : Series F) (k : Z) :
  atr df 14 = Ok a -> 0 <= k < len df -> threshold_at a k = Ok (threshold k).
Proof.
  intros Ea B. unfold threshold_at, threshold.
  destruct use_atr; [|reflexivity].
  destruct (@atr_series F num T df 14) as (a' & Ea' & _ & Ha); [lia|].
  assert (a' = a) as -> by congruence.
  now rewrite Ha by lia.
Qed.

Lemma takeoff_at_inside (a : Series F) (k : Z) :
  atr df 14 = Ok a -> 0 <= k < len df -> takeoff_at a k = Ok (takeoff_cond k).
Proof.
  intros Ea B. unfold takeoff_at, takeoff_cond.
  rewrite (threshold_at_inside Ea B). simpl.
  now rewrite iloc_close by lia.
Qed.

(** The retest search of a candidate: it does not raise, and it returns
    the least bar of its window that passes the test, or none. *)
Lemma find_retest_least (breakout_idx : Z) :
  0 <= breakout_idx ->
  exists r, find_retest breakout_idx = Ok r /\
    match r with
    | Some j =>
        breakout_idx + 1 <= j <= Z.min (len df - 1) (breakout_idx + max_retest_window)
        /\ retest_cond j = true
        /\ forall x, breakout_idx + 1 <= x < j -> retest_cond x = false
    | None =>
        forall x,
          breakout_idx + 1 <= x <= Z.min (len df - 1) (breakout_idx + max_retest_window) ->
          retest_cond x = false
    end.
Proof.
  intros B. unfold find_retest.
  destruct (@first_hit_range retest_at retest_cond (breakout_idx + 1)
              (Z.min (len df - 1) (breakout_idx + max_retest_window) + 1))
    as (r & E & S).
  - intros x Bx. apply retest_at_inside. lia.
  - exists r. split; [exact E|]. destruct r as [j|].
    + destruct S as (Bj & Q & Lt). repeat split; auto; lia.
    + intros x Bx. apply S. lia.
Qed.

(** The takeoff search of a candidate, likewise. *)
Lemma find_takeoff_least (a : Series F) (retest_idx : Z) :
  atr df 14 = Ok a -> 0 <= retest_idx ->
  exists t, find_takeoff a retest_idx = Ok t /\
    match t with
    | Some k =>
        retest_idx + 1 <= k <= Z.min (len df - 1) (retest_idx + takeoff_window)
        /\ takeoff_cond k = true
        /\ forall x, retest_idx + 1 <= x < k -> takeoff_cond x = false
    | None =>
        forall x,
          retest_idx + 1 <= x <= Z.min (len df - 1) (retest_idx + takeoff_window) ->
          takeoff_cond x = false
    end.
Proof.
  intros Ea B. unfold find_takeoff.
  destruct (@first_hit_range (takeoff_at a) takeoff_cond (retest_idx + 1)
              (Z.min (len df - 1) (retest_idx + takeoff_window) + 1))
    as (t & E & S).
  - intros x Bx. apply (takeoff_at_inside Ea). lia.
  - exists t. split; [exact E|]. destruct t as [k|].
    + destruct S as (Bk & Q & Lt). repeat split; auto; lia.
    + intros x Bx. apply S. lia.
Qed.

(** One candidate: the search does not raise, and when it completes its
    indices are a breakout, its first retest and its first takeoff. *)
Lemma detect_inside (a : Series F) (i : Z) :
  atr df 14 = Ok a -> 1 <= i < len df ->
  exists d, detect a i = Ok d /\
    match d with
    | Some (b, r, t) => completed i b r t
    | None => True
    end.
Proof.
  intros Ea B. unfold detect. rewrite (is_breakout_inside B). simpl.
  destruct (breakout_cond i) eqn:Eb; [|now exists None].
  destruct (@find_retest_least i) as (r & Er & Sr); [lia|]. rewrite Er. simpl.
  destruct r as [r|]; [|now exists None].
  destruct (@find_takeoff_least a r Ea) as (t & Et & St); [lia|]. rewrite Et. simpl.
  destruct t as [t|]; [|now exists None].
  exists (Some (i, r, t)). split; [reflexivity|]. now repeat split.
Qed.

(** The row of a completed candidate, field by field. *)
Lemma make_event_inside (a : Series F) (b r t : Z) :
  atr df 14 = Ok a -> 0 <= b < len df -> 0 <= r < len df -> 0 <= t < len df ->
  exists tb tr tt,
    iloc index b = Ok tb /\ iloc index r = Ok tr /\ iloc index t = Ok tt /\
    make_event a b r t =
    Ok {| breakout_time := tb;
          retest_time := tr;
          takeoff_time := tt;
          level_of := level;
          close_at_takeoff := at_pos close t;
          return_from_level_pct :=
            ((at_pos close t / level - of_int 1) * of_int 100)%num;
          bars_to_retest := r - b;
          bars_to_takeoff := t - r;
          atr_at_takeoff := Some (rolling_TR_mean df 14 t) |}.
Proof.
  intros Ea Bb Br Bt.
  destruct (iloc_index Bb) as (tb & Eb).
  destruct (iloc_index Br) as (tr & Er).
  destruct (iloc_index Bt) as (tt & Et).
  exists tb, tr, tt. repeat split; auto.
  unfold make_event. rewrite (iloc_close Bt), Eb, Er, Et. simpl.
  destruct (@atr_series F num T df 14) as (a' & Ea' & _ & Ha); [lia|].
  assert (a' = a) as -> by congruence.
  now rewrite Ha by lia.
Qed.

(** One iteration of the outer loop inside the frame: it does not raise,
    and it appends the row of the candidate when the candidate completes. *)
Lemma scan_bar_inside (a : Series F) (acc : list (Event F T)) (i : Z) :
  atr df 14 = Ok a -> 1 <= i < len df ->
  scan_bar a acc i = Ok (acc ++ events_of a [i]).
Proof.
  intros Ea B. unfold scan_bar, events_of. cbn [flat_map].
  destruct (detect_inside Ea B) as (d & Ed & S). rewrite Ed. simpl.
  destruct d as [[[b r] t]|]; [|now rewrite app_nil_r].
  destruct S as (-> & _ & (Br & _) & (Bt & _)).
  destruct (@make_event_inside a i r t Ea) as (tb & tr & tt & _ & _ & _ & Ev); try lia.
  rewrite Ev. reflexivity.
Qed.

Lemma for_each_scan_bar (a : Series F) (l : list Z) (acc : list (Event F T)) :
  atr df 14 = Ok a -> (forall i, In i l -> 1 <= i < len df) ->
  for_each l (scan_bar a) acc = Ok (acc ++ events_of a l).
Proof.
  intros Ea. revert acc. induction l as [|i l IH]; intros acc B.
  - simpl. now rewrite app_nil_r.
  - cbn [for_each]. rewrite (scan_bar_inside acc Ea (B i (or_introl eq_refl))).
    simpl bind. rewrite IH by (intros; apply B; now right).
    rewrite <- app_assoc. unfold events_of. cbn [flat_map].
    now rewrite app_nil_r.
Qed.

(** The scan does not raise, and it returns the rows of the completed
    candidates in the order of their breakout bars. *)
Lemma scan_events :
  exists a, atr df 14 = Ok a /\
    find_breakout_retests = Ok (events_of a (py_range 1 (len df))).
Proof.
  destruct (@atr_series F num T df 14) as (a & Ea & _); [lia|].
  exists a. split; [exact Ea|].
  unfold find_breakout_retests. rewrite Ea. simpl bind.
  rewrite (@for_each_scan_bar a _ [] Ea); [reflexivity|].
  intros i I. now apply In_py_range in I.
Qed.

(** Every returned row is the row of a candidate that completed. *)
Lemma In_events_of (a : Series F) (l : list Z) (ev : Event F T) :
  atr df 14 = Ok a -> (forall i, In i l -> 1 <= i < len df) ->
  In ev (events_of a l) <->
  exists b r t, In b l /\ completed b b r t /\ detect a b = Ok (Some (b, r, t))
                /\ make_event a b r t = Ok ev.
Proof.
  intros Ea B. unfold events_of. rewrite in_flat_map. split.
  - intros (i & Ii & Iev).
    destruct (detect_inside Ea (B i Ii)) as (d & Ed & S). rewrite Ed in Iev.
    destruct d as [[[b r] t]|]; [|contradiction].
    assert (b = i) as -> by apply S.
    destruct (make_event a i r t) as [ev'|] eqn:Em; [|contradiction].
    destruct Iev as [->|[]]. exists i, r, t. auto.
  - intros (b & r & t & Ib & _ & Ed & Em). exists b. split; [exact Ib|].
    rewrite Ed, Em. now left.
Qed.

End ScannerFacts.

(** ** Scenario A *)

(** Scenario A in exact arithmetic: one row, breakout at bar 1, retest at
    bar 2, takeoff at bar 3, and a return of exactly 0.6. *)
Lemma scenario_A_exact_run (atr_mult : Q) :
  exists a ev,
    atr scenario_A_exact 14 = Ok a
    /\ detect scenario_A_exact 100%Q 0.001%Q 20 20 0.005%Q false atr_mult a 1
       = Ok (Some (1, 2, 3))
    /\ make_event scenario_A_exact 100%Q a 1 2 3 = Ok ev
    /\ find_breakout_retests scenario_A_exact 100%Q 0.001%Q 20 20 0.005%Q false atr_mult
       = Ok [ev]
    /\ (return_from_level_pct ev == 0.6)%Q.
Proof.
  do 2 eexists. split; [reflexivity|]. split; [reflexivity|].
  split; [reflexivity|]. split; [reflexivity|]. reflexivity.
Qed.

(** C1 (as the code has it): on any four bars with closes 99, 101, 100.2
    and 100.6 and with bar 2 ranging from 99.9 to 100.05, for level 100,
    tolerance 0.1%, both windows 20, takeoff 0.5% and the volatility gate
    off, the scan returns exactly one row: breakout at bar 1, retest at
    bar 2, takeoff at bar 3, and a return from the level of
    0.6000000000000005, the binary64 value of (100.6 / 100 - 1) * 100,
    which is within 1e-15 of 0.6 and is not 0.6. *)
Theorem scenario_A_one_event (T : Type) (b0 b1 b2 b3 : Bar float T) (atr_mult : float) :
  Close b0 = 99%float -> Close b1 = 101%float ->
  Close b2 = 100.2%float -> Low b2 = 99.9%float -> High b2 = 100.05%float ->
  Close b3 = 100.6%float ->
  let df := [b0; b1; b2; b3] in
  exists a ev,
    atr df 14 = Ok a
    /\ find_breakout_retests df 100%float 0.001%float 20 20 0.005%float false atr_mult
       = Ok [ev]
    /\ detect df 100%float 0.001%float 20 20 0.005%float false atr_mult a 1
       = Ok (Some (1, 2, 3))
    /\ make_event df 100%float a 1 2 3 = Ok ev
    /\ breakout_time ev = Timestamp b1
    /\ retest_time ev = Timestamp b2
    /\ takeoff_time ev = Timestamp b3
    /\ bars_to_retest ev = 1 /\ bars_to_takeoff ev = 1
    /\ close_at_takeoff ev = 100.6%float
    /\ return_from_level_pct ev = 0x1.3333333333338p-1%float
    /\ PrimFloat.ltb (PrimFloat.abs (return_from_level_pct ev - 0.6)) 1e-15 = true
    /\ PrimFloat.eqb (return_from_level_pct ev) 0.6 = false.
Proof.
  destruct b0 as [t0 o0 h0 l0 c0 v0], b1 as [t1 o1 h1 l1 c1 v1],
    b2 as [t2 o2 h2 l2 c2 v2], b3 as [t3 o3 h3 l3 c3 v3].
  cbn [Close Low High Timestamp]. intros -> -> -> -> -> ->.
  do 2 eexists. split; [reflexivity|].
  split; [vm_compute; reflexivity|].
  repeat split; vm_compute; reflexivity.
Qed.

Lemma scenario_A_one_event_run :
  exists ev,
    find_breakout_retests scenario_A 100%float 0.001%float 20 20 0.005%float false 1%float
    = Ok [ev]
    /\ breakout_time ev = 11 /\ retest_time ev = 12 /\ takeoff_time ev = 13
    /\ return_from_level_pct ev = 0x1.3333333333338p-1%float.
Proof.
  destruct (@scenario_A_one_event Z
              (bar 10 99.5 98.5 99)%float (bar 11 101.5 99 101)%float
              (bar 12 100.05 99.9 100.2)%float (bar 13 100.7 100.1 100.6)%float
              1%float eq_refl eq_refl eq_refl eq_refl eq_refl eq_refl)
    as (a & ev & _ & E & _ & _ & Tb & Tr & Tt & _ & _ & _ & R & _).
  exists ev. repeat split; assumption.
Defined.

(** C1 as the specification states it fails on binary64: the one row of
    scenario A does not carry a return equal to 0.6. *)
Lemma scenario_A_return_differs_from_0_6 :
  ~ (exists ev,
       find_breakout_retests scenario_A 100%float 0.001%float 20 20 0.005%float
         false 1%float = Ok [ev]
       /\ PrimFloat.eqb (return_from_level_pct ev) 0.6 = true).
Proof.
  intros (ev & E & R). vm_compute in E. inversion E; subst ev.
  vm_compute in R. discriminate.
Qed.

(** ** Every returned row *)

Section ScannerClaims.
Context {F : Type} {num : Number F} {T : Type}.

Variable df : DataFrame F T.
Variable level : F.
Variable tolerance_pct : F.
Variable max_retest_window : Z.
Variable takeoff_window : Z.
Variable takeoff_pct : F.
Variable use_atr : bool.
Variable atr_mult : F.

Local Abbreviation close := (close df).
Local Abbreviation breakout_cond := (breakout_cond df level).
Local Abbreviation retest_cond := (retest_cond df level tolerance_pct).
Local Abbreviation find_retest := (find_retest df level tolerance_pct max_retest_window).
Local Abbreviation threshold := (threshold df level takeoff_pct use_atr atr_mult).
Local Abbreviation takeoff_cond := (takeoff_cond df level takeoff_pct use_atr atr_mult).
Local Abbreviation find_takeoff :=
  (find_takeoff df level takeoff_window takeoff_pct use_atr atr_mult).
Local Abbreviation detect :=
  (detect df level tolerance_pct max_retest_window takeoff_window takeoff_pct
     use_atr atr_mult).
Local Abbreviation completed :=
  (completed df level tolerance_pct max_retest_window takeoff_window takeoff_pct
     use_atr atr_mult).
Local Abbreviation make_event := (make_event df level).
Local Abbreviation events_of :=
  (events_of df level tolerance_pct max_retest_window takeoff_window takeoff_pct
     use_atr atr_mult).
Local Abbreviation scan_bar :=
  (scan_bar df level tolerance_pct max_retest_window takeoff_window takeoff_pct
     use_atr atr_mult).
Local Abbreviation find_breakout_retests :=
  (find_breakout_retests df level tolerance_pct max_retest_window takeoff_window
     takeoff_pct use_atr atr_mult).

(** A returned row comes from a candidate that completed inside the
    frame. *)
Lemma returned_row (evs : list (Event F T)) (ev : Event F T) :
  find_breakout_retests = Ok evs -> In ev evs ->
  exists a b r t,
    atr df 14 = Ok a /\ 1 <= b < len df /\ completed b b r t
    /\ detect a b = Ok (Some (b, r, t)) /\ make_event a b r t = Ok ev.
Proof.
  intros E I.
  destruct (@scan_events F num T df level tolerance_pct max_retest_window
              takeoff_window takeoff_pct use_atr atr_mult) as (a & Ea & E').
  assert (evs = events_of a (py_range 1 (len df))) as -> by congruence.
  assert (forall i, In i (py_range 1 (len df)) -> 1 <= i < len df) as B
    by (intros i Ii; now apply In_py_range in Ii).
  apply (In_events_of _ _ _ _ _ _ _ _ _ Ea B) in I as (b & r & t & Ib & C & Ed & Em).
  exists a, b, r, t. split; [exact Ea|]. split; [now apply B|].
  split; [exact C|]. now split.
Qed.

(** The scan returns: no access it makes raises. *)
Lemma scan_returns : exists evs, find_breakout_retests = Ok evs.
Proof.
  destruct (@scan_events F num T df level tolerance_pct max_retest_window
              takeoff_window takeoff_pct use_atr atr_mult) as (a & _ & E).
  eauto.
Qed.

(** C2: the scan returns, and in every returned row the retest comes after the breakout and at
    most [max_retest_window] bars after it, and the takeoff comes after
    the retest and at most [takeoff_window] bars after it. *)
Theorem event_indices_within_windows :
  exists evs, find_breakout_retests = Ok evs /\ forall ev, In ev evs ->
  exists a breakout_idx retest_idx takeoff_idx,
    atr df 14 = Ok a
    /\ detect a breakout_idx = Ok (Some (breakout_idx, retest_idx, takeoff_idx))
    /\ make_event a breakout_idx retest_idx takeoff_idx = Ok ev
    /\ breakout_idx < retest_idx <= breakout_idx + max_retest_window
    /\ retest_idx < takeoff_idx <= retest_idx + takeoff_window
    /\ 0 < bars_to_retest ev <= max_retest_window
    /\ 0 < bars_to_takeoff ev <= takeoff_window.
Proof.
  destruct scan_returns as (evs & E). exists evs. split; [exact E|]. intros ev I.
  destruct (returned_row _ E I) as (a & b & r & t & Ea & Bb & C & Ed & Em).
  exists a, b, r, t.
  destruct C as (_ & _ & (Br & _) & (Bt & _)).
  destruct (@make_event_inside F num T df level a b r t Ea) as (tb & tr & tt & _ & _ & _ & Ev);
    try lia.
  assert (bars_to_retest ev = r - b /\ bars_to_takeoff ev = t - r) as (Rb & Rt)
    by (rewrite Ev in Em; inversion Em; subst ev; now split).
  repeat split; auto; lia.
Qed.

(** C3: the scan returns, and in every returned row the return is
    [(close_at_takeoff / level - 1) * 100], computed with the operations
    of the prices, the bar counts are the differences of the indices, and
    the volatility is the one the series holds at the takeoff index. *)
Theorem event_fields_follow_formulas :
  exists evs, find_breakout_retests = Ok evs /\ forall ev, In ev evs ->
  exists a breakout_idx retest_idx takeoff_idx,
    atr df 14 = Ok a
    /\ detect a breakout_idx = Ok (Some (breakout_idx, retest_idx, takeoff_idx))
    /\ make_event a breakout_idx retest_idx takeoff_idx = Ok ev
    /\ iloc close takeoff_idx = Ok (close_at_takeoff ev)
    /\ return_from_level_pct ev
       = ((close_at_takeoff ev / level - of_int 1) * of_int 100)%num
    /\ bars_to_retest ev = retest_idx - breakout_idx
    /\ bars_to_takeoff ev = takeoff_idx - retest_idx
    /\ iloc a takeoff_idx = Ok (atr_at_takeoff ev)
    /\ level_of ev = level
    /\ iloc (index df) breakout_idx = Ok (breakout_time ev)
    /\ iloc (index df) retest_idx = Ok (retest_time ev)
    /\ iloc (index df) takeoff_idx = Ok (takeoff_time ev).
Proof.
  destruct scan_returns as (evs & E). exists evs. split; [exact E|]. intros ev I.
  destruct (returned_row _ E I) as (a & b & r & t & Ea & Bb & C & Ed & Em).
  exists a, b, r, t.
  destruct C as (_ & _ & (Br & _) & (Bt & _)).
  assert (0 <= t < len df) as Bt' by lia.
  destruct (@make_event_inside F num T df level a b r t Ea)
    as (tb & tr & tt & Eb & Er & Et & Ev); try lia.
  destruct (@atr_series F num T df 14) as (a' & Ea' & _ & Ha); [lia|].
  assert (a' = a) as -> by congruence.
  split; [exact Ea|]. split; [exact Ed|]. split; [exact Em|].
  rewrite Ev in Em. inversion Em; subst ev.
  cbn [close_at_takeoff return_from_level_pct bars_to_retest bars_to_takeoff
       atr_at_takeoff level_of breakout_time retest_time takeoff_time].
  repeat split; auto using iloc_close.
Qed.

(** ** The two searches of a candidate *)

(** C5: the retest of a candidate is the first bar [j] of
    [breakout_idx + 1 .. min(last index, breakout_idx + max_retest_window)]
    with [low[j] <= level * (1 + tolerance)], [high[j] >= level * (1 -
    tolerance)] and [close[j] >= level]; when the window holds no such bar
    the candidate appends no row. *)
Theorem retest_is_first_hold_in_window (a : Series F) (breakout_idx : Z) :
  atr df 14 = Ok a ->
  1 <= breakout_idx < len df -> breakout_cond breakout_idx = true ->
  let last := Z.min (len df - 1) (breakout_idx + max_retest_window) in
  exists found, find_retest breakout_idx = Ok found /\
    match found with
    | Some j =>
        breakout_idx + 1 <= j <= last
        /\ retest_cond j = true
        /\ (forall x, breakout_idx + 1 <= x < j -> retest_cond x = false)
        /\ (forall r t, detect a breakout_idx = Ok (Some (breakout_idx, r, t)) -> r = j)
    | None =>
        (forall x, breakout_idx + 1 <= x <= last -> retest_cond x = false)
        /\ detect a breakout_idx = Ok None
        /\ (forall acc, scan_bar a acc breakout_idx = Ok acc)
    end.
Proof.
  intros Ea B C last.
  destruct (@find_retest_least F num T df level tolerance_pct max_retest_window
              breakout_idx) as (found & E & S); [lia|].
  exists found. split; [exact E|].
  assert (is_breakout df level breakout_idx = Ok true) as Ib
    by (now rewrite is_breakout_inside, C).
  destruct found as [j|].
  - destruct S as (Bj & Cj & Lj). repeat split; auto; try apply Bj.
    intros r t Ed. unfold detect in Ed. rewrite Ib in Ed. simpl in Ed.
    rewrite E in Ed. simpl in Ed.
    apply bind_Ok in Ed as (ot & _ & Ed). destruct ot; now inversion Ed.
  - assert (detect a breakout_idx = Ok None) as Ed
      by (unfold detect; rewrite Ib; simpl; now rewrite E).
    repeat split; auto.
    intros acc. unfold scan_bar. now rewrite Ed.
Qed.


(** ** Inputs without a candidate *)

(** C7: when no bar closes at or above the level right after a bar that
    closed below it, the scan returns no row. *)
Theorem no_crossing_no_event :
  ~ (exists i, 1 <= i < len df
               /\ (at_pos close (i - 1) <? level)%num = true
               /\ (level <=? at_pos close i)%num = true) ->
  find_breakout_retests = Ok [].
Proof.
  intros N.
  destruct (@scan_events F num T df level tolerance_pct max_retest_window
              takeoff_window takeoff_pct use_atr atr_mult) as (a & Ea & E).
  rewrite E. f_equal.
  destruct (events_of a (py_range 1 (len df))) as [|ev evs] eqn:Ev; [reflexivity|].
  exfalso. apply N.
  assert (forall i, In i (py_range 1 (len df)) -> 1 <= i < len df) as B
    by (intros i Ii; now apply In_py_range in Ii).
  assert (In ev (events_of a (py_range 1 (len df)))) as I by (rewrite Ev; now left).
  apply (In_events_of _ _ _ _ _ _ _ _ _ Ea B) in I as (b & r & t & Ib & C & _).
  exists b. split; [now apply B|].
  destruct C as (_ & Cb & _). unfold breakout_cond in Cb.
  now apply andb_true_iff in Cb.
Qed.

(** C8: on fewer than two bars the scan returns no row and does not
    raise; the estimator does not raise either, and on no bar at all its
    series is empty. *)
Theorem short_input_no_event :
  len df < 2 ->
  find_breakout_retests = Ok []
  /\ forall W, 1 <= W ->
       exists a, atr df W = Ok a /\ len a = len df /\ (df = [] -> a = []).
Proof.
  intros L. split.
  - destruct (@scan_events F num T df level tolerance_pct max_retest_window
                takeoff_window takeoff_pct use_atr atr_mult) as (a & Ea & E).
    rewrite E. now rewrite py_range_nil by lia.
  - intros W HW.
    destruct (@atr_series F num T df W HW) as (a & Ea & La & _).
    exists a. split; [exact Ea|]. split; [exact La|].
    intros ->. destruct a; [reflexivity | discriminate].
Qed.

End ScannerClaims.

(** ** The estimator on exact prices *)

Lemma py_max_Qmax (x y : Q) : py_max x y = Qmax x y.
Proof.
  unfold py_max, Qmax, GenericMinMax.gmax. cbn [nlt Q_Number].
  destruct (Qle_bool y x) eqn:L; simpl.
  - apply Qle_bool_iff in L.
    destruct (Qcompare_spec x y) as [Eq|Lt|Gt]; try reflexivity.
    exfalso. apply (Qlt_not_le _ _ Lt L).
  - destruct (Qcompare_spec x y) as [Eq|Lt|Gt]; try reflexivity; exfalso.
    + assert (Qle_bool y x = true) as L'
        by (apply Qle_bool_iff; rewrite Eq; apply Qle_refl).
      congruence.
    + assert (Qle_bool y x = true) as L'
        by (apply Qle_bool_iff; now apply Qlt_le_weak).
      congruence.
Qed.

Lemma py_max_nonneg (x y : Q) : (0 <= x)%Q -> (0 <= y)%Q -> (0 <= py_max x y)%Q.
Proof. intros X Y. unfold py_max. now destruct (x <? y)%num. Qed.

Lemma TR_nonneg {T} (df : DataFrame Q T) (k : Z) : (0 <= TR df k)%Q.
Proof.
  unfold TR. destruct (k =? 0); [apply Qabs_nonneg|].
  repeat apply py_max_nonneg; apply Qabs_nonneg.
Qed.

Lemma fold_left_Qplus_nonneg (xs : list Q) (acc : Q) :
  (0 <= acc)%Q -> Forall (fun x => 0 <= x)%Q xs -> (0 <= fold_left Qplus xs acc)%Q.
Proof.
  revert acc. induction xs as [|x xs IH]; intros acc A P; simpl; [exact A|].
  inversion P; subst. apply IH; [|assumption].
  replace 0%Q with (0 + 0)%Q by reflexivity. now apply Qplus_le_compat.
Qed.

Lemma mean_nonneg (xs : list Q) :
  Forall (fun x => 0 <= x)%Q xs -> (0 <= mean xs)%Q.
Proof.
  intros P. unfold mean, total. cbn [ndiv nadd of_int Q_Number].
  unfold Qdiv. apply Qmult_le_0_compat.
  - apply fold_left_Qplus_nonneg; [apply Qle_refl | exact P].
  - apply Qinv_le_0_compat. unfold len.
    replace 0%Q with (inject_Z 0) by reflexivity. rewrite <- Zle_Qle. lia.
Qed.

(** The estimator that sums each window afresh, in exact arithmetic: its
    series is as long as the frame; position [k] holds the arithmetic mean
    of the true range over the bars [max(0, k-W+1) .. k]; the true range
    of bar 0 is [|high - low|] and that of a later bar is the largest of
    [|high - low|], [|high - previous close|] and [|low - previous close|];
    and no value is negative.  The same is shown of the running sum of
    pandas further down. *)
Theorem atr_is_rolling_mean_of_true_range {T} (df : DataFrame Q T) (W : Z) :
  1 <= W ->
  let high := map (@High Q T) df in
  let low := map (@Low Q T) df in
  let close := map (@Close Q T) df in
  exists a,
    atr df W = Ok a
    /\ len a = len df
    /\ forall k, 0 <= k < len df ->
         let first := Z.max 0 (k - W + 1) in
         let window := map (TR df) (py_range first (k + 1)) in
         iloc a k = Ok (Some (total window / inject_Z (k - first + 1))%Q)
         /\ TR df k
            = (if k =? 0 then Qabs (at_pos high 0 - at_pos low 0)
               else Qmax
                      (Qmax (Qabs (at_pos high k - at_pos low k))
                                    (Qabs (at_pos high k - at_pos close (k - 1))))
                      (Qabs (at_pos low k - at_pos close (k - 1))))%Q
         /\ (0 <= total window / inject_Z (k - first + 1))%Q.
Proof.
  intros HW high low close.
  destruct (@atr_series Q _ T df W HW) as (a & Ea & La & Ha).
  exists a. split; [exact Ea|]. split; [exact La|].
  intros k Bk first window.
  assert (len window = k - first + 1) as Lw.
  { unfold window, len. rewrite length_map, py_range_length. unfold first. lia. }
  assert (rolling_TR_mean df W k = (total window / inject_Z (k - first + 1))%Q) as Em.
  { unfold rolling_TR_mean, mean. fold first. fold window. now rewrite Lw. }
  split; [rewrite <- Em; now apply Ha|]. split.
  - unfold TR. fold high. fold low. fold close.
    destruct (k =? 0); [reflexivity|]. now rewrite !py_max_Qmax.
  - rewrite <- Em. unfold rolling_TR_mean. apply mean_nonneg.
    apply Forall_forall. intros x Ix. apply in_map_iff in Ix as (i & <- & _).
    apply TR_nonneg.
Qed.

(** ** The properties on the scenarios *)

Lemma scenario_A_returns_its_event :
  find_breakout_retests scenario_A 100%float 0.001%float 20 20 0.005%float false 1%float
  = Ok [scenario_A_event].
Proof. vm_compute. reflexivity. Qed.

Lemma event_indices_within_windows_scenario_A :
  0 < bars_to_retest scenario_A_event <= 20
  /\ 0 < bars_to_takeoff scenario_A_event <= 20.
Proof.
  destruct (@event_indices_within_windows float _ Z scenario_A 100%float 0.001%float
              20 20 0.005%float false 1%float) as (evs & E & H).
  rewrite scenario_A_returns_its_event in E. inversion E; subst evs.
  destruct (H scenario_A_event (or_introl eq_refl))
    as (a & b & r & t & _ & _ & _ & _ & _ & Hr & Ht).
  split; assumption.
Defined.

Lemma event_fields_follow_formulas_scenario_A :
  return_from_level_pct scenario_A_event
  = ((close_at_takeoff scenario_A_event / 100 - 1) * 100)%float.
Proof.
  destruct (@event_fields_follow_formulas float _ Z scenario_A 100%float 0.001%float
              20 20 0.005%float false 1%float) as (evs & E & H).
  rewrite scenario_A_returns_its_event in E. inversion E; subst evs.
  destruct (H scenario_A_event (or_introl eq_refl))
    as (a & b & r & t & _ & _ & _ & _ & R & _).
  exact R.
Defined.

Lemma atr_is_rolling_mean_of_true_range_scenario_A :
  exists a v, atr scenario_A_exact 2 = Ok a /\ len a = 4
              /\ iloc a 3 = Ok (Some v) /\ (v == 0.85)%Q.
Proof.
  destruct (@atr_is_rolling_mean_of_true_range Z scenario_A_exact 2) as (a & Ea & La & Ha).
  - lia.
  - destruct (Ha 3) as (E & _); [unfold len; simpl; lia|].
    eexists a, _. split; [exact Ea|]. split; [exact La|].
    split; [exact E|]. vm_compute. reflexivity.
Defined.

Lemma retest_is_first_hold_in_window_scenario_A :
  find_retest scenario_A 100%float 0.001%float 20 1 = Ok (Some 2)
  /\ 1 + 1 <= 2 <= Z.min (len scenario_A - 1) (1 + 20)
  /\ retest_cond scenario_A 100%float 0.001%float 2 = true.
Proof.
  destruct (@retest_is_first_hold_in_window float _ Z scenario_A 100%float 0.001%float
              20 20 0.005%float false 1%float
              (rolling_mean 14 [] (true_range scenario_A)) 1)
    as (found & E & S).
  - reflexivity.
  - unfold len. simpl. lia.
  - vm_compute. reflexivity.
  - assert (found = Some 2) as -> by (vm_compute in E; congruence).
    destruct S as (B & C & _). split; [exact E|]. split; [exact B | exact C].
Defined.


Lemma no_crossing_no_event_scenario_C :
  find_breakout_retests scenario_C 100%float 0.001%float 20 20 0.005%float true 1%float
  = Ok [].
Proof.
  apply no_crossing_no_event.
  intros (i & B & Lt & Le). unfold len in B. simpl in B.
  assert (i = 1 \/ i = 2) as [-> | ->] by lia; vm_compute in Le; discriminate.
Defined.

Lemma short_input_no_event_empty :
  find_breakout_retests (@nil (Bar float Z)) 100%float 0.001%float 20 20 0.005%float
    true 1%float = Ok []
  /\ atr (@nil (Bar float Z)) 14 = Ok [].
Proof.
  destruct (@short_input_no_event float _ Z [] 100%float 0.001%float 20 20 0.005%float
              true 1%float) as (E & A).
  - unfold len. simpl. lia.
  - split; [exact E|].
    destruct (A 14) as (a & Ea & _ & N); [lia|].
    rewrite Ea. now rewrite (N eq_refl).
Defined.

(** Scenario B: bar 2 touches the band and closes below the level, so the
    search of the candidate of bar 1 goes on past it; bar 3 is its retest
    and no bar is left for a takeoff.  The candidate that bar 3 opens has
    no bar left to search. *)
Lemma scenario_B_no_event :
  find_breakout_retests scenario_B 100%float 0.001%float 20 20 0.005%float false 1%float
  = Ok []
  /\ retest_at scenario_B 100%float 0.001%float 2 = Ok false
  /\ find_retest scenario_B 100%float 0.001%float 20 1 = Ok (Some 3)
  /\ find_takeoff scenario_B 100%float 20 0.005%float false 1%float
       (rolling_mean 14 [] (true_range scenario_B)) 3 = Ok None
  /\ find_retest scenario_B 100%float 0.001%float 20 3 = Ok None.
Proof. repeat split; vm_compute; reflexivity. Qed.

(** Scenario D: with the gate on and a multiplier of 3 the threshold at
    bar 3 is above its close, and the candidate is abandoned. *)
Lemma scenario_D_no_event :
  find_breakout_retests scenario_A 100%float 0.001%float 20 20 0.005%float true 3%float
  = Ok []
  /\ find_retest scenario_A 100%float 0.001%float 20 1 = Ok (Some 2)
  /\ find_takeoff scenario_A 100%float 20 0.005%float true 3%float
       (rolling_mean 14 [] (true_range scenario_A)) 2 = Ok None.
Proof. repeat split; vm_compute; reflexivity. Qed.

(** * Further properties of the scanner *)

Lemma py_range_sorted lo hi : StronglySorted Z.lt (py_range lo hi).
Proof.
  remember (Z.to_nat (hi - lo)) as n eqn:En.
  revert lo En. induction n as [|n IH]; intros lo En.
  - rewrite py_range_nil by lia. constructor.
  - rewrite py_range_cons by lia. constructor; [apply IH; lia|].
    apply Forall_forall. intros x Ix. apply In_py_range in Ix. lia.
Qed.

Lemma py_range_app lo mid hi :
  lo <= mid <= hi -> py_range lo hi = py_range lo mid ++ py_range mid hi.
Proof.
  intros B. remember (Z.to_nat (mid - lo)) as n eqn:En.
  revert lo En B. induction n as [|n IH]; intros lo En B.
  - assert (lo = mid) as -> by lia. now rewrite (@py_range_nil mid mid) by lia.
  - rewrite (@py_range_cons lo hi), (@py_range_cons lo mid) by lia.
    simpl. f_equal. apply IH; lia.
Qed.

Section ScannerExtras.
Context {F : Type} {num : Number F} {T : Type}.

Variable df : DataFrame F T.
Variable level : F.
Variable tolerance_pct : F.
Variable max_retest_window : Z.
Variable takeoff_window : Z.
Variable takeoff_pct : F.
Variable use_atr : bool.
Variable atr_mult : F.

Local Abbreviation detect :=
  (detect df level tolerance_pct max_retest_window takeoff_window takeoff_pct
     use_atr atr_mult).
Local Abbreviation completed :=
  (completed df level tolerance_pct max_retest_window takeoff_window takeoff_pct
     use_atr atr_mult).
Local Abbreviation make_event := (make_event df level).
Local Abbreviation events_of :=
  (events_of df level tolerance_pct max_retest_window takeoff_window takeoff_pct
     use_atr atr_mult).
Local Abbreviation find_breakout_retests :=
  (find_breakout_retests df level tolerance_pct max_retest_window takeoff_window
     takeoff_pct use_atr atr_mult).

(** The candidates of the bars [l] that complete, with the rows they
    append: one row for each, in the order of the bars. *)
Lemma events_of_candidates (a : Series F) (l : list Z) :
  atr df 14 = Ok a -> (forall i, In i l -> 1 <= i < len df) ->
  StronglySorted Z.lt l ->
  exists trs,
    Forall2 (fun tr ev => make_event a (fst (fst tr)) (snd (fst tr)) (snd tr) = Ok ev)
      trs (events_of a l)
    /\ (forall b r t, In (b, r, t) trs <-> In b l /\ detect a b = Ok (Some (b, r, t)))
    /\ StronglySorted (fun x y => fst (fst x) < fst (fst y)) trs.
Proof.
  intros Ea. induction l as [|i l IH]; intros B S.
  - exists []. split; [constructor|]. split; [|constructor].
    intros b r t. split; [intros [] | intros ([] & _)].
  - inversion S as [|? ? Sl Fi]; subst.
    destruct IH as (trs & F2 & Mem & Srt); [intros; apply B; now right | exact Sl |].
    destruct (@detect_inside F num T df level tolerance_pct max_retest_window
                takeoff_window takeoff_pct use_atr atr_mult a i Ea
                (B i (or_introl eq_refl))) as (d & Ed & C).
    assert (events_of a (i :: l)
            = match d with
              | Some (b, r, t) =>
                  match make_event a b r t with Ok ev => [ev] | Raise _ => [] end
              | None => []
              end ++ events_of a l) as Eev.
    { unfold events_of. cbn [flat_map]. rewrite Ed. now destruct d as [[[? ?] ?]|]. }
    rewrite Eev. clear Eev.
    destruct d as [[[b r] t]|].
    + destruct C as (-> & _ & (Br & _) & (Bt & _)).
      pose proof (B i (or_introl eq_refl)) as Bi.
      destruct (@make_event_inside F num T df level a i r t Ea)
        as (tb & tr & tt & _ & _ & _ & Ev); try lia.
      rewrite Ev. exists ((i, r, t) :: trs). split; [|split].
      * constructor; [exact Ev | exact F2].
      * intros b' r' t'. split.
        -- intros [E | I].
           ++ inversion E; subst. split; [now left | exact Ed].
           ++ apply Mem in I as (I & D). split; [now right | exact D].
        -- intros ([<- | I] & D).
           ++ left. congruence.
           ++ right. apply Mem. now split.
      * constructor; [exact Srt|]. apply Forall_forall. intros [[b' r'] t'] I.
        apply Mem in I as (I & _). simpl.
        rewrite Forall_forall in Fi. now apply Fi.
    + exists trs. split; [exact F2|]. split; [|exact Srt].
      intros b' r' t'. rewrite Mem. split.
      * intros (I & D). split; [now right | exact D].
      * intros ([<- | I] & D); [congruence | now split].
Qed.

(** X1: the scan returns one row for each bar whose candidate completes
    and no other row, and the rows are in the order of their breakout bars. *)
Theorem rows_are_the_completed_candidates_in_order :
  exists a evs trs,
    atr df 14 = Ok a
    /\ find_breakout_retests = Ok evs
    /\ Forall2 (fun tr ev => make_event a (fst (fst tr)) (snd (fst tr)) (snd tr) = Ok ev)
         trs evs
    /\ (forall b r t,
          In (b, r, t) trs <-> 1 <= b < len df /\ detect a b = Ok (Some (b, r, t)))
    /\ StronglySorted (fun x y => fst (fst x) < fst (fst y)) trs.
Proof.
  destruct (@scan_events F num T df level tolerance_pct max_retest_window
              takeoff_window takeoff_pct use_atr atr_mult) as (a & Ea & E).
  destruct (@events_of_candidates a (py_range 1 (len df)) Ea) as (trs & F2 & Mem & Srt).
  - intros i I. now apply In_py_range in I.
  - apply py_range_sorted.
  - exists a, (events_of a (py_range 1 (len df))), trs.
    split; [exact Ea|]. split; [exact E|]. split; [exact F2|]. split; [|exact Srt].
    intros b r t. rewrite Mem, In_py_range. reflexivity.
Qed.

(** A candidate that opens on one of the last two bars does not complete. *)
Lemma detect_near_end (a : Series F) (i : Z) :
  atr df 14 = Ok a -> 1 <= i < len df -> len df - 2 <= i -> detect a i = Ok None.
Proof.
  intros Ea B L.
  destruct (@detect_inside F num T df level tolerance_pct max_retest_window
              takeoff_window takeoff_pct use_atr atr_mult a i Ea B) as (d & Ed & C).
  destruct d as [[[b r] t]|]; [|exact Ed].
  destruct C as (-> & _ & (Br & _) & (Bt & _)). lia.
Qed.

Lemma events_of_none (a : Series F) (l : list Z) :
  (forall i, In i l -> detect a i = Ok None) -> events_of a l = [].
Proof.
  induction l as [|i l IH]; intros N; [reflexivity|].
  unfold events_of. cbn [flat_map]. rewrite (N i (or_introl eq_refl)).
  apply IH. intros; apply N; now right.
Qed.

Lemma length_events_of (a : Series F) (l : list Z) :
  (length (events_of a l) <= length l)%nat.
Proof.
  induction l as [|i l IH]; [simpl; lia|].
  unfold events_of in *. cbn [flat_map]. rewrite length_app.
  destruct (detect a i) as [[[[b r] t]|]|]; simpl; try lia.
  destruct (make_event a b r t); simpl; lia.
Qed.

(** X2: a candidate needs a later bar for its retest and one more for its
    takeoff, so the scan returns at most [len(df) - 3] rows, and none on
    fewer than three bars. *)
Theorem at_most_len_minus_3_rows :
  exists evs, find_breakout_retests = Ok evs /\ len evs <= Z.max 0 (len df - 3).
Proof.
  destruct (@scan_events F num T df level tolerance_pct max_retest_window
              takeoff_window takeoff_pct use_atr atr_mult) as (a & Ea & E).
  eexists. split; [exact E|].
  assert (py_range 1 (len df)
          = py_range 1 (Z.max 1 (len df - 2))
            ++ py_range (Z.max 1 (len df - 2)) (Z.max 1 (len df))) as ->.
  { destruct (Z.le_gt_cases (len df) 1).
    - now rewrite !py_range_nil by lia.
    - replace (Z.max 1 (len df)) with (len df) by lia. apply py_range_app. lia. }
  assert (events_of a (py_range 1 (Z.max 1 (len df - 2))
                       ++ py_range (Z.max 1 (len df - 2)) (Z.max 1 (len df)))
          = events_of a (py_range 1 (Z.max 1 (len df - 2)))
            ++ events_of a (py_range (Z.max 1 (len df - 2)) (Z.max 1 (len df)))) as ->
    by (unfold events_of; apply flat_map_app).
  rewrite (@events_of_none a (py_range (Z.max 1 (len df - 2)) (Z.max 1 (len df)))).
  - rewrite app_nil_r. unfold len at 1.
    pose proof (length_events_of a (py_range 1 (Z.max 1 (len df - 2)))) as L.
    rewrite py_range_length in L. lia.
  - intros i I. apply In_py_range in I. apply (detect_near_end Ea); lia.
Qed.

(** X3: with a retest window or a takeoff window of no bar (zero or
    below) the searches are empty: the scan does not raise and returns no
    row. *)
Theorem nonpositive_window_no_event :
  max_retest_window <= 0 \/ takeoff_window <= 0 -> find_breakout_retests = Ok [].
Proof.
  intros W.
  destruct (@scan_events F num T df level tolerance_pct max_retest_window
              takeoff_window takeoff_pct use_atr atr_mult) as (a & Ea & E).
  rewrite E. f_equal. apply events_of_none. intros i I. apply In_py_range in I.
  destruct (@detect_inside F num T df level tolerance_pct max_retest_window
              takeoff_window takeoff_pct use_atr atr_mult a i Ea I) as (d & Ed & C).
  destruct d as [[[b r] t]|]; [|exact Ed].
  destruct C as (-> & _ & (Br & _) & (Bt & _)). lia.
Qed.

End ScannerExtras.

(** The least passing position of a window is the least passing position
    of any wider window that starts at the same bar. *)
Lemma least_in_wider_window (q : Z -> bool) (lo hi hi' r : Z) (found : option Z) :
  hi <= hi' ->
  lo <= r <= hi /\ q r = true /\ (forall x, lo <= x < r -> q x = false) ->
  match found with
  | Some j => lo <= j <= hi' /\ q j = true /\ (forall x, lo <= x < j -> q x = false)
  | None => forall x, lo <= x <= hi' -> q x = false
  end ->
  found = Some r.
Proof.
  intros H (Br & Qr & Lr) S. destruct found as [j|].
  - destruct S as (Bj & Qj & Lj). f_equal.
    destruct (Z.lt_trichotomy j r) as [Lt | [Eq | Gt]]; [|exact Eq|].
    + rewrite Lr in Qj by lia. discriminate.
    + rewrite Lj in Qr by lia. discriminate.
  - rewrite S in Qr by lia. discriminate.
Qed.

Section ScannerWindows.
Context {F : Type} {num : Number F} {T : Type}.

Variable df : DataFrame F T.
Variable level : F.
Variable tolerance_pct : F.
Variable takeoff_pct : F.
Variable use_atr : bool.
Variable atr_mult : F.

Local Abbreviation scan w tw :=
  (find_breakout_retests df level tolerance_pct w tw takeoff_pct use_atr atr_mult).
Local Abbreviation detect_in w tw :=
  (detect df level tolerance_pct w tw takeoff_pct use_atr atr_mult).

Variable max_retest_window takeoff_window : Z.
Variable max_retest_window' takeoff_window' : Z.

(** X7: widening the retest window or the takeoff window loses no row and
    changes none: every row of the scan is a row of the scan with the
    wider windows. *)
Theorem wider_windows_keep_rows :
  max_retest_window <= max_retest_window' -> takeoff_window <= takeoff_window' ->
  exists evs evs',
    find_breakout_retests df level tolerance_pct max_retest_window takeoff_window
      takeoff_pct use_atr atr_mult = Ok evs
    /\ find_breakout_retests df level tolerance_pct max_retest_window' takeoff_window'
         takeoff_pct use_atr atr_mult = Ok evs'
    /\ forall ev, In ev evs -> In ev evs'.
Proof.
  intros Wr Wt.
  destruct (@scan_events F num T df level tolerance_pct max_retest_window
              takeoff_window takeoff_pct use_atr atr_mult) as (a & Ea & E).
  destruct (@scan_events F num T df level tolerance_pct max_retest_window'
              takeoff_window' takeoff_pct use_atr atr_mult) as (a' & Ea' & E').
  assert (a' = a) as -> by congruence.
  do 2 eexists. split; [exact E|]. split; [exact E'|].
  assert (forall i, In i (py_range 1 (len df)) -> 1 <= i < len df) as B
    by (intros i Ii; now apply In_py_range in Ii).
  intros ev I.
  apply (In_events_of _ _ _ _ _ _ _ _ _ Ea B) in I as (b & r & t & Ib & C & Ed & Em).
  apply (In_events_of _ _ _ _ _ _ _ _ _ Ea B). exists b, r, t.
  destruct C as (_ & Cb & (Br & Cr & Lr) & (Bt & Ct & Lt)).
  assert (is_breakout df level b = Ok true) as Eb
    by (rewrite is_breakout_inside by (now apply B); now rewrite Cb).
  destruct (@find_retest_least F num T df level tolerance_pct max_retest_window' b)
    as (fr & Er & Sr); [apply B in Ib; lia|].
  assert (fr = Some r) as ->.
  { apply (@least_in_wider_window
             (retest_cond df level tolerance_pct) (b + 1)
             (Z.min (len df - 1) (b + max_retest_window))
             (Z.min (len df - 1) (b + max_retest_window')) r fr); [lia | auto | exact Sr]. }
  destruct (@find_takeoff_least F num T df level takeoff_window' takeoff_pct use_atr
              atr_mult a r Ea) as (ft & Et & St); [apply B in Ib; lia|].
  assert (ft = Some t) as ->.
  { apply (@least_in_wider_window
             (takeoff_cond df level takeoff_pct use_atr atr_mult) (r + 1)
             (Z.min (len df - 1) (r + takeoff_window))
             (Z.min (len df - 1) (r + takeoff_window')) t ft); [lia | auto | exact St]. }
  assert (detect_in max_retest_window' takeoff_window' a b = Ok (Some (b, r, t))) as Ed'.
  { unfold detect. rewrite Eb. simpl. rewrite Er. simpl. now rewrite Et. }
  split; [exact Ib|]. split; [|split; [exact Ed' | exact Em]].
  split; [reflexivity|]. split; [exact Cb|]. split.
  - destruct Sr as (Br' & _). auto.
  - destruct St as (Bt' & _). auto.
Qed.

End ScannerWindows.

Lemma sorted_nth_error_lt (l : list Z) (i j : nat) (x y : Z) :
  StronglySorted Z.lt l -> (i < j)%nat ->
  nth_error l i = Some x -> nth_error l j = Some y -> x < y.
Proof.
  intros S. revert i j. induction S as [|a l S IH Fa]; intros i j L Ei Ej.
  - destruct i; discriminate.
  - destruct j as [|j]; [lia|]. destruct i as [|i]; simpl in Ei, Ej.
    + inversion Ei; subst. rewrite Forall_forall in Fa. apply Fa.
      now apply nth_error_In with j.
    + apply (IH i j); auto; lia.
Qed.

Section ScannerTimes.
Context {F : Type} {num : Number F}.

Variable df : DataFrame F Z.
Variable level : F.
Variable tolerance_pct : F.
Variable max_retest_window : Z.
Variable takeoff_window : Z.
Variable takeoff_pct : F.
Variable use_atr : bool.
Variable atr_mult : F.

(** X8: on a frame whose timestamps increase from bar to bar, every
    returned row has its breakout before its retest and its retest before
    its takeoff. *)
Theorem event_times_increase :
  StronglySorted Z.lt (index df) ->
  exists evs,
    find_breakout_retests df level tolerance_pct max_retest_window takeoff_window
      takeoff_pct use_atr atr_mult = Ok evs
    /\ forall ev, In ev evs ->
         breakout_time ev < retest_time ev /\ retest_time ev < takeoff_time ev.
Proof.
  intros S.
  destruct (@scan_returns F num Z df level tolerance_pct max_retest_window takeoff_window
              takeoff_pct use_atr atr_mult) as (evs & E).
  exists evs. split; [exact E|]. intros ev I.
  destruct (@returned_row F num Z df level tolerance_pct max_retest_window
              takeoff_window takeoff_pct use_atr atr_mult evs ev E I)
    as (a & b & r & t & Ea & Bb & C & _ & Em).
  destruct C as (_ & _ & (Br & _) & (Bt & _)).
  destruct (@make_event_inside F num Z df level a b r t Ea)
    as (tb & tr & tt & Eb & Er & Et & Ev); try lia.
  rewrite Ev in Em. inversion Em; subst ev. cbn [breakout_time retest_time takeoff_time].
  apply iloc_nth_error in Eb; [|lia]. apply iloc_nth_error in Er; [|lia].
  apply iloc_nth_error in Et; [|lia].
  split.
  - apply (@sorted_nth_error_lt (index df) (Z.to_nat b) (Z.to_nat r)); auto; lia.
  - apply (@sorted_nth_error_lt (index df) (Z.to_nat r) (Z.to_nat t)); auto; lia.
Qed.

End ScannerTimes.

(** X4: the scan reads the columns High, Low and Close and the index of
    the frame and nothing else of it: two frames that agree on these four
    give the same result, whatever their Open and Volume. *)
Theorem scan_reads_high_low_close_index {F : Type} {num : Number F} {T : Type}
  (df df' : DataFrame F T) (level tolerance_pct : F)
  (max_retest_window takeoff_window : Z) (takeoff_pct : F) (use_atr : bool)
  (atr_mult : F) :
  map (@High F T) df = map (@High F T) df' ->
  map (@Low F T) df = map (@Low F T) df' ->
  map (@Close F T) df = map (@Close F T) df' ->
  map (@Timestamp F T) df = map (@Timestamp F T) df' ->
  find_breakout_retests df level tolerance_pct max_retest_window takeoff_window
    takeoff_pct use_atr atr_mult
  = find_breakout_retests df' level tolerance_pct max_retest_window takeoff_window
      takeoff_pct use_atr atr_mult.
Proof.
  intros Hh Hl Hc Ht.
  assert (length df = length df') as Hn
    by (rewrite <- (length_map (@Close F T) df), Hc; apply length_map).
  unfold find_breakout_retests, atr, true_range, scan_bar, detect, is_breakout,
    find_retest, retest_at, find_takeoff, takeoff_at, make_event,
    close, low, high, index, len.
  rewrite Hh, Hl, Hc, Ht, Hn. reflexivity.
Qed.

(** * Further properties on exact prices *)

Lemma py_max_ge_left (x y : Q) : (x <= py_max x y)%Q.
Proof.
  unfold py_max. cbn [nlt Q_Number].
  destruct (Qle_bool y x) eqn:L; simpl; [apply Qle_refl|].
  destruct (Qlt_le_dec x y) as [Lt | Le]; [now apply Qlt_le_weak|].
  apply Qle_bool_iff in Le. congruence.
Qed.

Lemma length_flat_map_le {A B} (f g : A -> list B) (l : list A) :
  (forall x, In x l -> (length (f x) <= length (g x))%nat) ->
  (length (flat_map f l) <= length (flat_map g l))%nat.
Proof.
  induction l as [|x l IH]; intros P; [simpl; lia|].
  cbn [flat_map]. rewrite !length_app.
  pose proof (P x (or_introl eq_refl)).
  assert (length (flat_map f l) <= length (flat_map g l))%nat
    by (apply IH; intros; apply P; now right).
  lia.
Qed.

Section ExactScanner.
Context {T : Type}.

Variable df : DataFrame Q T.
Variable level : Q.
Variable tolerance_pct : Q.
Variable max_retest_window : Z.
Variable takeoff_window : Z.
Variable takeoff_pct : Q.
Variable atr_mult : Q.

Local Abbreviation scan gate :=
  (find_breakout_retests df level tolerance_pct max_retest_window takeoff_window
     takeoff_pct gate atr_mult).
Local Abbreviation detect_with gate :=
  (detect df level tolerance_pct max_retest_window takeoff_window takeoff_pct
     gate atr_mult).
Local Abbreviation events_with gate :=
  (events_of df level tolerance_pct max_retest_window takeoff_window takeoff_pct
     gate atr_mult).

(** The threshold of the takeoff is never below [level * (1 + takeoff_pct)]. *)
Lemma threshold_at_least_base (gate : bool) (k : Z) :
  (level * (1 + takeoff_pct) <= threshold df level takeoff_pct gate atr_mult k)%Q.
Proof.
  unfold threshold. cbn [of_int Q_Number nmul nadd].
  change (inject_Z 1) with 1%Q.
  destruct gate; [apply py_max_ge_left | apply Qle_refl].
Qed.

(** X5: on exact prices and a positive level, the close of every returned
    row is at least [level * (1 + takeoff_pct)], and so its return from
    the level is at least [100 * takeoff_pct], with the gate on or off. *)
Theorem return_at_least_takeoff_pct (gate : bool) :
  (0 < level)%Q ->
  exists evs,
    find_breakout_retests df level tolerance_pct max_retest_window takeoff_window
      takeoff_pct gate atr_mult = Ok evs
    /\ forall ev, In ev evs ->
         (level * (1 + takeoff_pct) <= close_at_takeoff ev)%Q
         /\ (takeoff_pct * 100 <= return_from_level_pct ev)%Q.
Proof.
  intros Lpos.
  destruct (@scan_returns Q _ T df level tolerance_pct max_retest_window takeoff_window
              takeoff_pct gate atr_mult) as (evs & E).
  exists evs. split; [exact E|]. intros ev I.
  destruct (@returned_row Q _ T df level tolerance_pct max_retest_window
              takeoff_window takeoff_pct gate atr_mult evs ev E I)
    as (a & b & r & t & Ea & Bb & C & _ & Em).
  destruct C as (_ & _ & (Br & _) & (Bt & Ct & _)).
  destruct (@make_event_inside Q _ T df level a b r t Ea)
    as (tb & tr & tt & _ & _ & _ & Ev); try lia.
  rewrite Ev in Em. inversion Em; subst ev.
  cbn [close_at_takeoff return_from_level_pct].
  unfold takeoff_cond in Ct. cbn [nle Q_Number] in Ct. apply Qle_bool_iff in Ct.
  assert (level * (1 + takeoff_pct) <= at_pos (close df) t)%Q as Base
    by (eapply Qle_trans; [apply threshold_at_least_base | exact Ct]).
  split; [exact Base|].
  cbn [nmul nsub ndiv of_int Q_Number].
  change (inject_Z 1) with 1%Q. change (inject_Z 100) with 100%Q.
  assert (1 + takeoff_pct <= at_pos (close df) t / level)%Q as D.
  { apply Qle_shift_div_l; [exact Lpos|]. now rewrite Qmult_comm. }
  revert D. generalize (at_pos (close df) t / level)%Q. intros d D. lra.
Qed.

(** With the gate on the test of the takeoff is at least as hard as with
    the gate off. *)
Lemma takeoff_cond_gate_off (k : Z) :
  takeoff_cond df level takeoff_pct true atr_mult k = true ->
  takeoff_cond df level takeoff_pct false atr_mult k = true.
Proof.
  unfold takeoff_cond. cbn [nle Q_Number]. rewrite !Qle_bool_iff. intros C.
  eapply Qle_trans; [|exact C].
  eapply Qle_trans; [|apply (threshold_at_least_base true)].
  unfold threshold. cbn [of_int Q_Number nmul nadd]. apply Qle_refl.
Qed.

(** A candidate that completes with the gate on completes with the gate
    off, on the same retest and on a takeoff that is not later. *)
Lemma detect_gate_off (a : Series Q) (b r t : Z) :
  atr df 14 = Ok a -> 1 <= b < len df ->
  detect_with true a b = Ok (Some (b, r, t)) ->
  exists t', detect_with false a b = Ok (Some (b, r, t')) /\ t' <= t.
Proof.
  intros Ea B Ed.
  destruct (@detect_inside Q _ T df level tolerance_pct max_retest_window
              takeoff_window takeoff_pct true atr_mult a b Ea B) as (d & Ed' & C).
  assert (d = Some (b, r, t)) as -> by congruence.
  destruct C as (_ & Cb & (Br & Cr & Lr) & (Bt & Ct & _)).
  assert (is_breakout df level b = Ok true) as Eb
    by (rewrite is_breakout_inside by exact B; now rewrite Cb).
  destruct (@find_retest_least Q _ T df level tolerance_pct max_retest_window b)
    as (fr & Er & Sr); [lia|].
  assert (fr = Some r) as ->.
  { apply (@least_in_wider_window
             (retest_cond df level tolerance_pct) (b + 1)
             (Z.min (len df - 1) (b + max_retest_window))
             (Z.min (len df - 1) (b + max_retest_window)) r fr); [lia | auto | exact Sr]. }
  destruct (@find_takeoff_least Q _ T df level takeoff_window takeoff_pct false
              atr_mult a r Ea) as (ft & Et & St); [lia|].
  apply takeoff_cond_gate_off in Ct.
  destruct ft as [t'|].
  - exists t'. split.
    + unfold detect. rewrite Eb. simpl. rewrite Er. simpl. now rewrite Et.
    + destruct St as (_ & _ & Lt').
      destruct (Z.le_gt_cases t' t) as [Le | Gt]; [exact Le|].
      rewrite Lt' in Ct by lia. discriminate.
  - rewrite St in Ct by lia. discriminate.
Qed.

(** X6: on exact prices the volatility gate only removes rows or delays
    their takeoff: a candidate that completes with the gate on completes
    with the gate off, on the same retest and on a takeoff that is not
    later, and the scan with the gate on returns no more rows than the
    scan with the gate off. *)
Theorem gate_removes_or_delays :
  exists evs_on evs_off,
    find_breakout_retests df level tolerance_pct max_retest_window takeoff_window
      takeoff_pct true atr_mult = Ok evs_on
    /\ find_breakout_retests df level tolerance_pct max_retest_window takeoff_window
         takeoff_pct false atr_mult = Ok evs_off
    /\ (length evs_on <= length evs_off)%nat
    /\ forall a b r t,
         atr df 14 = Ok a -> 1 <= b < len df ->
         detect_with true a b = Ok (Some (b, r, t)) ->
         exists t', detect_with false a b = Ok (Some (b, r, t')) /\ t' <= t.
Proof.
  destruct (@scan_events Q _ T df level tolerance_pct max_retest_window
              takeoff_window takeoff_pct true atr_mult) as (a & Ea & E).
  destruct (@scan_events Q _ T df level tolerance_pct max_retest_window
              takeoff_window takeoff_pct false atr_mult) as (a' & Ea' & E').
  assert (a' = a) as -> by congruence.
  do 2 eexists. split; [exact E|]. split; [exact E'|]. split.
  - unfold events_of. apply length_flat_map_le. intros i I. apply In_py_range in I.
    destruct (detect_with true a i) as [[[[b r] t]|]|] eqn:Ed; try (simpl; lia).
    destruct (@detect_inside Q _ T df level tolerance_pct max_retest_window
                takeoff_window takeoff_pct true atr_mult a i Ea I) as (d & Ed' & C).
    assert (d = Some (b, r, t)) as -> by congruence.
    assert (b = i) as -> by apply C.
    destruct (detect_gate_off Ea I Ed) as (t' & Ed'' & Le).
    rewrite Ed''.
    destruct (@detect_inside Q _ T df level tolerance_pct max_retest_window
                takeoff_window takeoff_pct false atr_mult a i Ea I) as (d2 & Ed2 & C2).
    assert (d2 = Some (i, r, t')) as -> by congruence.
    destruct C2 as (_ & _ & (Br & _) & (Bt & _)).
    destruct (@make_event_inside Q _ T df level a i r t' Ea)
      as (tb & tr & tt & _ & _ & _ & Ev); try lia.
    rewrite Ev. destruct (make_event df level a i r t); simpl; lia.
  - intros a0 b r t Ea0 B Ed. now apply detect_gate_off.
Qed.

End ExactScanner.

(** ** The estimator between the extremes of its window *)

Lemma fold_left_Qplus_bounds (lo hi : Q) (xs : list Q) (acc : Q) :
  Forall (fun x => lo <= x /\ x <= hi)%Q xs ->
  (acc + inject_Z (len xs) * lo <= fold_left Qplus xs acc
   /\ fold_left Qplus xs acc <= acc + inject_Z (len xs) * hi)%Q.
Proof.
  revert acc. induction xs as [|x xs IH]; intros acc P.
  - unfold len. simpl. change (inject_Z 0) with 0%Q. split; lra.
  - inversion P as [|? ? (Lx & Hx) P']; subst.
    destruct (IH (acc + x)%Q P') as (L & H).
    assert (inject_Z (len (x :: xs)) == inject_Z (len xs) + 1)%Q as E.
    { unfold len. cbn [length]. rewrite Nat2Z.inj_succ, <- Z.add_1_r.
      rewrite inject_Z_plus. reflexivity. }
    simpl fold_left. rewrite E. split; lra.
Qed.

Lemma mean_bounds (lo hi : Q) (xs : list Q) :
  xs <> [] -> Forall (fun x => lo <= x /\ x <= hi)%Q xs ->
  (lo <= mean xs /\ mean xs <= hi)%Q.
Proof.
  intros Ne P. unfold mean, total. cbn [ndiv nadd of_int Q_Number].
  change (inject_Z 0) with 0%Q.
  destruct (fold_left_Qplus_bounds 0 P) as (L & H).
  assert (0 < inject_Z (len xs))%Q as Pos.
  { change 0%Q with (inject_Z 0). rewrite <- Zlt_Qlt.
    destruct xs; [congruence | unfold len; simpl; lia]. }
  split.
  - apply Qle_shift_div_l; [exact Pos|]. lra.
  - apply Qle_shift_div_r; [exact Pos|]. lra.
Qed.

(** X9: on exact prices every value of the estimator lies between the
    smallest and the largest true range of the bars of its window: bounds
    that hold for the true range of the bars [max(0, k-W+1) .. k] hold for
    position [k] of the series. *)
Theorem atr_between_true_range_bounds {T} (df : DataFrame Q T) (W k : Z) (lo hi : Q) :
  1 <= W -> 0 <= k < len df ->
  (forall i, Z.max 0 (k - W + 1) <= i <= k -> (lo <= TR df i /\ TR df i <= hi)%Q) ->
  exists a v, atr df W = Ok a /\ iloc a k = Ok (Some v) /\ (lo <= v /\ v <= hi)%Q.
Proof.
  intros HW Bk P.
  destruct (@atr_series Q _ T df W HW) as (a & Ea & _ & Ha).
  exists a, (rolling_TR_mean df W k). split; [exact Ea|]. split; [now apply Ha|].
  unfold rolling_TR_mean. apply mean_bounds.
  - intros E. apply (f_equal (@length Q)) in E.
    rewrite length_map, py_range_length in E. simpl in E. lia.
  - apply Forall_forall. intros x Ix. apply in_map_iff in Ix as (i & <- & Ii).
    apply In_py_range in Ii. apply P. lia.
Qed.

(** X10: on exact prices the first value of the estimator is the range of
    the first bar, [|high - low|], for every window. *)
Theorem atr_first_value_is_first_range {T} (b0 : Bar Q T) (rest : DataFrame Q T) (W : Z) :
  1 <= W ->
  exists a v,
    atr (b0 :: rest) W = Ok a /\ iloc a 0 = Ok (Some v)
    /\ (v == Qabs (High b0 - Low b0))%Q.
Proof.
  intros HW.
  destruct (@atr_series Q _ T (b0 :: rest) W HW) as (a & Ea & _ & Ha).
  exists a, (rolling_TR_mean (b0 :: rest) W 0).
  split; [exact Ea|]. split; [apply Ha; unfold len; simpl; lia|].
  unfold rolling_TR_mean.
  replace (Z.max 0 (0 - W + 1)) with 0 by lia.
  rewrite py_range_cons, py_range_nil by lia.
  unfold mean, total, len, TR, at_pos. simpl.
  cbn [ndiv nadd nsub nabs of_int Q_Number].
  change (inject_Z 0) with 0%Q. change (inject_Z 1) with 1%Q.
  generalize (Qabs (High b0 - Low b0)). intros q. field.
Qed.

(** * The display inversion *)

Lemma insert_sorted_perm {F} `{Number F} (x : F) (l : list F) :
  Permutation (insert_sorted x l) (x :: l).
Proof.
  induction l as [|y l IH]; simpl; [reflexivity|].
  destruct (x <=? y)%num; [reflexivity|].
  rewrite IH. apply perm_swap.
Qed.

Lemma sort_values_perm {F} `{Number F} (l : list F) : Permutation (sort_values l) l.
Proof.
  induction l as [|x l IH]; simpl; [reflexivity|].
  rewrite insert_sorted_perm. now constructor.
Qed.

Lemma length_sort_values {F} `{Number F} (l : list F) :
  length (sort_values l) = length l.
Proof. apply Permutation_length, sort_values_perm. Qed.

Lemma insert_sorted_HdRel (a x : Q) (l : list Q) :
  HdRel Qle a l -> (a <= x)%Q -> HdRel Qle a (insert_sorted x l).
Proof.
  intros Hd Le. destruct l as [|y l]; simpl; [now constructor|].
  destruct (Qle_bool x y); constructor; [exact Le | now inversion Hd].
Qed.

Lemma insert_sorted_Sorted (x : Q) (l : list Q) :
  Sorted Qle l -> Sorted Qle (insert_sorted x l).
Proof.
  induction l as [|y l IH]; intros S; simpl; [repeat constructor|].
  inversion S as [|? ? Sl Hd]; subst.
  destruct (Qle_bool x y) eqn:L.
  - constructor; [exact S|]. constructor. now apply Qle_bool_iff.
  - constructor; [now apply IH|]. apply insert_sorted_HdRel; [exact Hd|].
    destruct (Qlt_le_dec y x) as [Lt | Le]; [now apply Qlt_le_weak|].
    apply Qle_bool_iff in Le. congruence.
Qed.

Lemma sort_values_sorted (l : list Q) : StronglySorted Qle (sort_values l).
Proof.
  apply Sorted_StronglySorted; [exact Qle_trans|].
  induction l as [|x l IH]; simpl; [constructor | now apply insert_sorted_Sorted].
Qed.

(** Two ascending lists with the same values, each as many times, hold
    the same value at every position. *)
Lemma sorted_same_values (l1 l2 : list Q) :
  StronglySorted Qle l1 -> StronglySorted Qle l2 ->
  permutation Qeq Qeq_dec l1 l2 -> Forall2 Qeq l1 l2.
Proof.
  revert l2. induction l1 as [|a l1 IH]; intros l2 S1 S2 P.
  - apply permut_sym in P. apply (permut_nil Q_Setoid) in P. subst. constructor.
  - destruct l2 as [|b l2]; [apply (permut_nil Q_Setoid) in P; discriminate|].
    inversion S1 as [|? ? S1' F1]; inversion S2 as [|? ? S2' F2]; subst.
    assert (forall x y l, StronglySorted Qle (x :: l) -> InA Qeq y (x :: l) -> (x <= y)%Q)
      as Least.
    { intros x y l S I. inversion S as [|? ? _ Fx]; subst.
      inversion I as [? ? E | ? ? I']; subst.
      - rewrite E. apply Qle_refl.
      - apply InA_alt in I' as (z & E & Iz). rewrite E.
        rewrite Forall_forall in Fx. now apply Fx. }
    assert (a == b)%Q as E.
    { apply Qle_antisym.
      - apply (Least a b l1 S1). apply (permut_InA_InA Q_Setoid (permut_sym P)).
        now constructor.
      - apply (Least b a l2 S2). apply (permut_InA_InA Q_Setoid P).
        now constructor. }
    constructor; [exact E|]. apply IH; auto.
    apply (permut_remove_hd_eq Q_Setoid [] l2 b E P).
Qed.

Lemma StronglySorted_snoc {A} (R : A -> A -> Prop) (l : list A) (a : A) :
  StronglySorted R l -> Forall (fun y => R y a) l -> StronglySorted R (l ++ [a]).
Proof.
  induction 1 as [|b l S IH Fb]; intros Fa; simpl; [repeat constructor|].
  inversion Fa; subst. constructor; [now apply IH|].
  apply Forall_app. split; [exact Fb | now repeat constructor].
Qed.

(** A descending map turns an ascending list into a descending one. *)
Lemma sorted_rev_map (g : Q -> Q) (l : list Q) :
  (forall x y, x <= y -> g y <= g x)%Q ->
  StronglySorted Qle l -> StronglySorted Qle (rev (map g l)).
Proof.
  intros G. induction 1 as [|a l S IH Fa]; simpl; [constructor|].
  apply StronglySorted_snoc; [exact IH|].
  apply Forall_forall. intros y Iy. apply in_rev, in_map_iff in Iy as (x & <- & Ix).
  apply G. rewrite Forall_forall in Fa. now apply Fa.
Qed.

(** Sorting the images under a descending map reverses the sorted list. *)
Lemma sort_values_descending_map (g : Q -> Q) (l : list Q) :
  (forall x y, x <= y -> g y <= g x)%Q ->
  Forall2 Qeq (sort_values (map g l)) (rev (map g (sort_values l))).
Proof.
  intros G. apply sorted_same_values.
  - apply sort_values_sorted.
  - apply sorted_rev_map; [exact G | apply sort_values_sorted].
  - apply (Permutation_impl_permutation Qeq_dec Q_Setoid).
    rewrite sort_values_perm, <- Permutation_rev.
    apply Permutation_map. symmetry. apply sort_values_perm.
Qed.

Lemma Forall2_Qeq_nth (l1 l2 : list Q) (i : nat) (d : Q) :
  Forall2 Qeq l1 l2 -> (nth i l1 d == nth i l2 d)%Q.
Proof.
  intros P. revert i. induction P as [|a b l1 l2 E P IH]; intros [|i]; simpl;
    auto; reflexivity.
Qed.

Lemma observations_mirror {F} `{Number F} (m : F) (series : Series F) :
  observations (mirror (Some m) series)
  = map (fun x => (m + (m - x))%num) (observations series).
Proof.
  induction series as [|[x|] s IH]; simpl; [reflexivity | now rewrite <- IH | exact IH].
Qed.

Lemma observations_mirror_none {F} `{Number F} (series : Series F) :
  observations (mirror None series) = [].
Proof. induction series as [|ox s IH]; simpl; [reflexivity | exact IH]. Qed.

Lemma observations_none {F} (series : Series F) :
  observations series = [] -> Forall (fun ox => ox = None) series.
Proof.
  induction series as [|[x|] s IH]; simpl; intros E; [constructor | discriminate |].
  constructor; [reflexivity | now apply IH].
Qed.

Lemma median_none {F} `{Number F} (series : Series F) :
  median series = None -> observations series = [].
Proof.
  unfold median. rewrite length_sort_values.
  destruct (observations series) as [|x xs]; [reflexivity|].
  simpl length. now destruct (Nat.odd (S (length xs))).
Qed.

Lemma mirror_descending (m x y : Q) : (x <= y -> m + (m - y) <= m + (m - x))%Q.
Proof. intros Le. lra. Qed.

(** The sorted mirror image at position [i] is the mirror image of the
    sorted values at the position as far from the other end. *)
Lemma nth_sorted_mirror (m : Q) (xs : list Q) (i : nat) :
  (i < length xs)%nat ->
  (nth i (sort_values (map (fun x => m + (m - x)) xs)) 0
   == m + (m - nth (length xs - 1 - i) (sort_values xs) 0))%Q.
Proof.
  intros L.
  rewrite (Forall2_Qeq_nth i 0%Q
             (@sort_values_descending_map (fun x => m + (m - x))%Q xs
                (mirror_descending m))).
  rewrite rev_nth by (now rewrite length_map, length_sort_values).
  rewrite length_map, length_sort_values.
  rewrite (@nth_indep Q (map (fun x => m + (m - x))%Q (sort_values xs))
             (length xs - S i) 0%Q (m + (m - 0))%Q)
    by (rewrite length_map, length_sort_values; lia).
  rewrite (map_nth (fun x => m + (m - x))%Q).
  replace (length xs - S i)%nat with (length xs - 1 - i)%nat by lia. reflexivity.
Qed.

(** The mirror image has the median of the series. *)
Lemma median_mirror (series : Series Q) (m : Q) :
  median series = Some m ->
  exists m', median (mirror (Some m) series) = Some m' /\ (m' == m)%Q.
Proof.
  unfold median. rewrite observations_mirror, !length_sort_values, length_map.
  cbn [nadd nsub ndiv of_int Q_Number].
  set (xs := observations series). set (n := length xs).
  assert (n = length xs) as En by reflexivity. clearbody n.
  destruct n as [|n']; [discriminate|].
  destruct (Nat.odd (S n')) eqn:Odd; intros E.
  - apply Nat.odd_spec in Odd as (k & Ek).
    assert (S n' / 2 = k)%nat as D by (symmetry; apply (Nat.div_unique _ 2 k 1); lia).
    rewrite D in *. injection E as Em.
    eexists. split; [reflexivity|].
    rewrite nth_sorted_mirror by lia.
    replace (length xs - 1 - k)%nat with k by lia.
    change (inject_Z 0) with 0%Q in Em. rewrite Em. lra.
  - assert (Nat.even (S n') = true) as Even
      by (rewrite <- Nat.negb_odd, Odd; reflexivity).
    apply Nat.even_spec in Even as (k & Ek).
    assert (S n' / 2 = k)%nat as D by (symmetry; apply (Nat.div_unique _ 2 k 0); lia).
    rewrite D in *. injection E as Em.
    eexists. split; [reflexivity|].
    rewrite !nth_sorted_mirror by lia.
    replace (length xs - 1 - (k - 1))%nat with k by lia.
    replace (length xs - 1 - k)%nat with (k - 1)%nat by lia.
    change (inject_Z 2) with 2%Q in *. change (inject_Z 0) with 0%Q in *.
    revert Em.
    generalize (nth (k - 1) (sort_values xs) 0%Q).
    generalize (nth k (sort_values xs) 0%Q). intros b a Em.
    rewrite <- Em. field.
Qed.

Lemma Qopp_opp (x : Q) : Qopp (Qopp x) = x.
Proof. destruct x as [n d]. unfold Qopp. simpl. now rewrite Z.opp_involutive. Qed.

Lemma float_opp_opp (x : float) : PrimFloat.opp (PrimFloat.opp x) = x.
Proof.
  apply FloatAxioms.Prim2SF_inj. rewrite !FloatAxioms.opp_spec.
  destruct (FloatOps.Prim2SF x) as [s | s | | s m e]; simpl; try reflexivity;
    now rewrite Bool.negb_involutive.
Qed.

(** X11: negating twice gives the series back, value by value, on exact
    values and, bit for bit, on binary64; a position without a value
    stays without one. *)
Theorem negate_twice_is_identity :
  (forall series : Series Q,
     invert_series (invert_series series "negate") "negate" = series)
  /\ (forall series : Series float,
        invert_series (invert_series series "negate") "negate" = series).
Proof.
  split; intros series; unfold invert_series; rewrite String.eqb_refl, map_map;
    rewrite <- (map_id series) at 2; apply map_ext; intros [x|]; simpl;
    try reflexivity.
  - now rewrite Qopp_opp.
  - now rewrite float_opp_opp.
Qed.

(** X12: every method but "negate" reflects the series around its median:
    a value [x] becomes [2 * median - x], which is negative when [x] is
    above twice the median, and a position without a value stays without
    one. *)
Theorem mirror_reflects_around_median (series : Series Q) (method : string) (m : Q) :
  method <> "negate"%string -> median series = Some m ->
  Forall2 (fun ox oy =>
             match ox, oy with
             | Some x, Some y => (y == 2 * m - x)%Q /\ (0 <= y <-> x <= 2 * m)%Q
             | None, None => True
             | _, _ => False
             end) series (invert_series series method).
Proof.
  intros Nn Em. unfold invert_series.
  apply String.eqb_neq in Nn. rewrite Nn, Em. clear Em.
  induction series as [|[x|] s IH]; simpl; constructor; auto.
  cbn [nadd nsub Q_Number]. split; [ring | split; intros; lra].
Qed.

(** X13: every method but "negate" keeps the median of the series, and
    applied twice it gives the series back, value by value. *)
Theorem mirror_keeps_median_and_undoes_itself (series : Series Q) (method : string) :
  method <> "negate"%string ->
  same_value (median (invert_series series method)) (median series)
  /\ Forall2 same_value
       (invert_series (invert_series series method) method) series.
Proof.
  intros Nn. unfold invert_series. apply String.eqb_neq in Nn. rewrite Nn.
  destruct (median series) as [m|] eqn:Em.
  - destruct (median_mirror _ Em) as (m' & Em' & E). rewrite Em'.
    split; [exact E|]. clear Em Em'.
    induction series as [|[x|] s IH]; simpl; constructor; auto.
    + cbn [nadd nsub Q_Number]. simpl. lra.
    + exact I.
  - apply median_none in Em. pose proof (observations_none _ Em) as N.
    assert (median (mirror None series) = None) as ->
      by (unfold median; now rewrite observations_mirror_none).
    split; [exact I|]. clear Em.
    induction N as [|ox s -> N IH]; simpl; constructor; auto. exact I.
Qed.

(** * Appending bars *)

Section Appending.
Context {F : Type} {num : Number F} {T : Type}.

Variable df more : DataFrame F T.

Lemma len_app_frame : len (df ++ more) = len df + len more.
Proof. unfold len. rewrite length_app. lia. Qed.

Lemma at_pos_prefix (f : Bar F T -> F) (k : Z) :
  0 <= k < len df -> at_pos (map f (df ++ more)) k = at_pos (map f df) k.
Proof.
  intros B. unfold at_pos. rewrite map_app. apply app_nth1.
  rewrite length_map. unfold len in B. lia.
Qed.

Lemma TR_prefix (k : Z) : 0 <= k < len df -> TR (df ++ more) k = TR df k.
Proof.
  intros B. unfold TR. destruct (Z.eqb_spec k 0) as [-> | N].
  - now rewrite !at_pos_prefix.
  - now rewrite !at_pos_prefix by lia.
Qed.

Lemma rolling_TR_mean_prefix (W k : Z) :
  0 <= k < len df -> rolling_TR_mean (df ++ more) W k = rolling_TR_mean df W k.
Proof.
  intros B. unfold rolling_TR_mean. f_equal. apply map_ext_in.
  intros i I. apply In_py_range in I. apply TR_prefix. lia.
Qed.

(** X14: the estimator looks at no later bar: appending bars to the frame
    leaves every value it had computed as it was. *)
Theorem atr_ignores_later_bars (W k : Z) :
  1 <= W -> 0 <= k < len df ->
  exists a a' v,
    atr df W = Ok a /\ atr (df ++ more) W = Ok a'
    /\ iloc a k = Ok v /\ iloc a' k = Ok v.
Proof.
  intros HW B.
  destruct (@atr_series F num T df W HW) as (a & Ea & _ & Ha).
  destruct (@atr_series F num T (df ++ more) W HW) as (a' & Ea' & _ & Ha').
  exists a, a', (Some (rolling_TR_mean df W k)).
  split; [exact Ea|]. split; [exact Ea'|]. split; [now apply Ha|].
  rewrite <- rolling_TR_mean_prefix by exact B.
  apply Ha'. rewrite len_app_frame. pose proof (len_nonneg more). lia.
Qed.

Variable level : F.
Variable tolerance_pct : F.
Variable max_retest_window : Z.
Variable takeoff_window : Z.
Variable takeoff_pct : F.
Variable use_atr : bool.
Variable atr_mult : F.

Local Abbreviation scan frame :=
  (find_breakout_retests frame level tolerance_pct max_retest_window takeoff_window
     takeoff_pct use_atr atr_mult).
Local Abbreviation detect_on frame :=
  (detect frame level tolerance_pct max_retest_window takeoff_window takeoff_pct
     use_atr atr_mult).

Lemma breakout_cond_prefix (i : Z) :
  1 <= i < len df ->
  breakout_cond (df ++ more) level i = breakout_cond df level i.
Proof.
  intros B. unfold breakout_cond, close. now rewrite !at_pos_prefix by lia.
Qed.

Lemma retest_cond_prefix (j : Z) :
  0 <= j < len df ->
  retest_cond (df ++ more) level tolerance_pct j = retest_cond df level tolerance_pct j.
Proof.
  intros B. unfold retest_cond, close, low, high. now rewrite !at_pos_prefix by lia.
Qed.

Lemma takeoff_cond_prefix (k : Z) :
  0 <= k < len df ->
  takeoff_cond (df ++ more) level takeoff_pct use_atr atr_mult k
  = takeoff_cond df level takeoff_pct use_atr atr_mult k.
Proof.
  intros B. unfold takeoff_cond, threshold, close.
  now rewrite at_pos_prefix, rolling_TR_mean_prefix by lia.
Qed.

(** A candidate that completes on the frame completes on the longer
    frame, on the same bars and with the same row. *)
Lemma detect_prefix (a a' : Series F) (b r t : Z) (ev : Event F T) :
  atr df 14 = Ok a -> atr (df ++ more) 14 = Ok a' -> 1 <= b < len df ->
  detect_on df a b = Ok (Some (b, r, t)) -> make_event df level a b r t = Ok ev ->
  detect_on (df ++ more) a' b = Ok (Some (b, r, t))
  /\ make_event (df ++ more) level a' b r t = Ok ev.
Proof.
  intros Ea Ea' B Ed Em.
  pose proof (len_nonneg more) as Lm. pose proof len_app_frame as La.
  destruct (@detect_inside F num T df level tolerance_pct max_retest_window
              takeoff_window takeoff_pct use_atr atr_mult a b Ea B) as (d & Ed' & C).
  assert (d = Some (b, r, t)) as -> by congruence.
  destruct C as (_ & Cb & (Br & Cr & Lr) & (Bt & Ct & Lt)).
  split.
  - assert (is_breakout (df ++ more) level b = Ok true) as Eb.
    { rewrite is_breakout_inside by lia. now rewrite breakout_cond_prefix, Cb. }
    destruct (@find_retest_least F num T (df ++ more) level tolerance_pct
                max_retest_window b) as (fr & Er & Sr); [lia|].
    assert (fr = Some r) as ->.
    { apply (@least_in_wider_window
               (retest_cond (df ++ more) level tolerance_pct) (b + 1)
               (Z.min (len df - 1) (b + max_retest_window))
               (Z.min (len (df ++ more) - 1) (b + max_retest_window)) r fr);
        [lia | | exact Sr].
      split; [exact Br|]. split; [now rewrite retest_cond_prefix by lia|].
      intros x Bx. rewrite retest_cond_prefix by lia. now apply Lr. }
    destruct (@find_takeoff_least F num T (df ++ more) level takeoff_window takeoff_pct
                use_atr atr_mult a' r Ea') as (ft & Et & St); [lia|].
    assert (ft = Some t) as ->.
    { apply (@least_in_wider_window
               (takeoff_cond (df ++ more) level takeoff_pct use_atr atr_mult) (r + 1)
               (Z.min (len df - 1) (r + takeoff_window))
               (Z.min (len (df ++ more) - 1) (r + takeoff_window)) t ft);
        [lia | | exact St].
      split; [exact Bt|]. split; [now rewrite takeoff_cond_prefix by lia|].
      intros x Bx. rewrite takeoff_cond_prefix by lia. now apply Lt. }
    unfold detect. rewrite Eb. simpl. rewrite Er. simpl. now rewrite Et.
  - destruct (@make_event_inside F num T df level a b r t Ea)
      as (tb & tr & tt & Eb & Er & Et & Ev); try lia.
    destruct (@make_event_inside F num T (df ++ more) level a' b r t Ea')
      as (tb' & tr' & tt' & Eb' & Er' & Et' & Ev'); try lia.
    assert (forall k x x', 0 <= k < len df ->
              iloc (index df) k = Ok x -> iloc (index (df ++ more)) k = Ok x' -> x' = x)
      as Same.
    { intros k x x' Bk E E'.
      apply iloc_nth_error in E; [|lia]. apply iloc_nth_error in E'; [|lia].
      unfold index in E'. rewrite map_app, nth_error_app1 in E'
        by (rewrite length_map; unfold len in Bk; lia).
      unfold index in E. congruence. }
    rewrite Ev'. rewrite Ev in Em. inversion Em; subst ev.
    rewrite (Same b tb tb'), (Same r tr tr'), (Same t tt tt') by (auto; lia).
    unfold close. now rewrite at_pos_prefix, rolling_TR_mean_prefix by lia.
Qed.

(** X15: the scan looks at no later bar either: every row returned on a
    frame is returned, unchanged, on the frame with bars appended. *)
Theorem rows_survive_appended_bars :
  exists evs evs',
    find_breakout_retests df level tolerance_pct max_retest_window takeoff_window
      takeoff_pct use_atr atr_mult = Ok evs
    /\ find_breakout_retests (df ++ more) level tolerance_pct max_retest_window
         takeoff_window takeoff_pct use_atr atr_mult = Ok evs'
    /\ forall ev, In ev evs -> In ev evs'.
Proof.
  destruct (@scan_events F num T df level tolerance_pct max_retest_window
              takeoff_window takeoff_pct use_atr atr_mult) as (a & Ea & E).
  destruct (@scan_events F num T (df ++ more) level tolerance_pct max_retest_window
              takeoff_window takeoff_pct use_atr atr_mult) as (a' & Ea' & E').
  do 2 eexists. split; [exact E|]. split; [exact E'|].
  assert (forall i, In i (py_range 1 (len df)) -> 1 <= i < len df) as B
    by (intros i Ii; now apply In_py_range in Ii).
  assert (forall i, In i (py_range 1 (len (df ++ more))) -> 1 <= i < len (df ++ more))
    as B' by (intros i Ii; now apply In_py_range in Ii).
  intros ev I.
  apply (In_events_of _ _ _ _ _ _ _ _ _ Ea B) in I as (b & r & t & Ib & _ & Ed & Em).
  destruct (detect_prefix Ea Ea' (B b Ib) Ed Em) as (Ed' & Em').
  assert (In b (py_range 1 (len (df ++ more)))) as Ib'.
  { apply In_py_range. apply B in Ib. rewrite len_app_frame.
    pose proof (len_nonneg more). lia. }
  apply (In_events_of _ _ _ _ _ _ _ _ _ Ea' B'). exists b, r, t.
  split; [exact Ib'|]. split; [|split; [exact Ed' | exact Em']].
  destruct (@detect_inside F num T (df ++ more) level tolerance_pct max_retest_window
              takeoff_window takeoff_pct use_atr atr_mult a' b Ea' (B' b Ib'))
    as (d & Ed2 & C).
  assert (d = Some (b, r, t)) as -> by congruence. exact C.
Qed.

End Appending.

(** ** The further properties on the scenarios *)

Lemma nonpositive_window_no_event_scenario_A :
  find_breakout_retests scenario_A 100%float 0.001%float 0 20 0.005%float false 1%float
  = Ok []
  /\ find_breakout_retests scenario_A 100%float 0.001%float 20 (-3) 0.005%float false
       1%float = Ok [].
Proof.
  split.
  - apply nonpositive_window_no_event. left. lia.
  - apply nonpositive_window_no_event. right. lia.
Defined.

Lemma wider_windows_keep_rows_scenario_A :
  exists evs evs',
    find_breakout_retests scenario_A 100%float 0.001%float 1 1 0.005%float false 1%float
    = Ok evs
    /\ find_breakout_retests scenario_A 100%float 0.001%float 20 20 0.005%float false
         1%float = Ok evs'
    /\ forall ev, In ev evs -> In ev evs'.
Proof.
  apply (@wider_windows_keep_rows float _ Z scenario_A 100%float 0.001%float
           0.005%float false 1%float 1 1 20 20); lia.
Defined.

Lemma event_times_increase_scenario_A :
  exists evs,
    find_breakout_retests scenario_A 100%float 0.001%float 20 20 0.005%float false 1%float
    = Ok evs
    /\ forall ev, In ev evs ->
         breakout_time ev < retest_time ev /\ retest_time ev < takeoff_time ev.
Proof.
  apply event_times_increase.
  repeat constructor; simpl; lia.
Defined.

Lemma scan_reads_high_low_close_index_scenario_A :
  find_breakout_retests scenario_A 100%float 0.001%float 20 20 0.005%float false 1%float
  = find_breakout_retests
      (map (fun b => {| Timestamp := Timestamp b; Open := 0%float; High := High b;
                        Low := Low b; Close := Close b; Volume := 7%float |})
         scenario_A)
      100%float 0.001%float 20 20 0.005%float false 1%float.
Proof.
  apply scan_reads_high_low_close_index; reflexivity.
Defined.

Lemma return_at_least_takeoff_pct_scenario_A :
  exists evs,
    find_breakout_retests scenario_A_exact 100%Q 0.001%Q 20 20 0.005%Q false 1%Q = Ok evs
    /\ forall ev, In ev evs ->
         (100 * (1 + 0.005) <= close_at_takeoff ev)%Q
         /\ (0.005 * 100 <= return_from_level_pct ev)%Q.
Proof.
  apply (@return_at_least_takeoff_pct Z scenario_A_exact 100%Q 0.001%Q 20 20 0.005%Q
           1%Q false).
  reflexivity.
Defined.

Lemma atr_between_true_range_bounds_scenario_A :
  exists a v,
    atr scenario_A_exact 2 = Ok a /\ iloc a 3 = Ok (Some v)
    /\ (0.5 <= v /\ v <= 1.2)%Q.
Proof.
  apply (@atr_between_true_range_bounds Z scenario_A_exact 2 3 0.5%Q 1.2%Q).
  - lia.
  - unfold len. simpl. lia.
  - intros i B. assert (i = 2 \/ i = 3) as [-> | ->] by lia;
      split; vm_compute; discriminate.
Defined.

Lemma atr_first_value_is_first_range_scenario_A :
  exists a v,
    atr scenario_A_exact 14 = Ok a /\ iloc a 0 = Ok (Some v)
    /\ (v == Qabs (99.5 - 98.5))%Q.
Proof.
  apply (@atr_first_value_is_first_range Z (bar 10 99.5 98.5 99)%Q
           (tl scenario_A_exact) 14).
  lia.
Defined.

Lemma mirror_reflects_around_median_spike :
  Forall2 (fun ox oy =>
             match ox, oy with
             | Some x, Some y => (y == 2 * 2 - x)%Q /\ (0 <= y <-> x <= 2 * 2)%Q
             | None, None => True
             | _, _ => False
             end) spike_closes (invert_series spike_closes "mirror").
Proof.
  apply mirror_reflects_around_median; [discriminate | reflexivity].
Defined.

Lemma mirror_keeps_median_and_undoes_itself_spike :
  same_value (median (invert_series spike_closes "mirror")) (median spike_closes)
  /\ Forall2 same_value
       (invert_series (invert_series spike_closes "mirror") "mirror") spike_closes.
Proof.
  apply mirror_keeps_median_and_undoes_itself. discriminate.
Defined.

Lemma atr_ignores_later_bars_scenario_A :
  exists a a' v,
    atr scenario_A 14 = Ok a /\ atr (scenario_A ++ scenario_C) 14 = Ok a'
    /\ iloc a 3 = Ok v /\ iloc a' 3 = Ok v.
Proof.
  apply atr_ignores_later_bars; [lia | unfold len; simpl; lia].
Defined.

(** * The estimator as pandas computes it *)

Section PandasEstimatorFacts.
Context {F : Type} {num : Number F} {neg : Negation F} {ins : Predicates F} {T : Type}.

Lemma length_roll_mean_loop (values : Series F) (n minp : Z) (positions : list Z)
  (st : MeanState F) :
  length (roll_mean_loop values n minp positions st) = length positions.
Proof.
  revert st. induction positions as [|i rest IH]; intros st; simpl; [reflexivity|].
  now rewrite IH.
Qed.

Lemma len_roll_mean (values : Series F) (n minp : Z) :
  len (roll_mean values n minp) = len values.
Proof.
  unfold roll_mean, len. rewrite length_roll_mean_loop, py_range_length. lia.
Qed.

(** The estimator does not raise for a window of at least one bar, and its
    series is as long as the frame. *)
Lemma atr_pandas_returns (df : DataFrame F T) (n : Z) :
  1 <= n -> exists a, atr_pandas df n = Ok a /\ len a = len df.
Proof.
  intros Hn. unfold atr_pandas. destruct (Z.ltb_spec n 1); [lia|].
  eexists. split; [reflexivity|].
  rewrite len_roll_mean. unfold prep_values, len.
  now rewrite length_map, length_true_range.
Qed.

End PandasEstimatorFacts.

(** * The scanner on any series of the length of the frame *)

Section ScannerOnSeries.
Context {F : Type} {num : Number F} {T : Type}.

Variable df : DataFrame F T.
Variable level : F.
Variable tolerance_pct : F.
Variable max_retest_window : Z.
Variable takeoff_window : Z.
Variable takeoff_pct : F.
Variable use_atr : bool.
Variable atr_mult : F.
Variable a : Series F.
Hypothesis len_a : len a = len df.

Local Abbreviation close := (close df).
Local Abbreviation detect :=
  (detect df level tolerance_pct max_retest_window takeoff_window takeoff_pct
     use_atr atr_mult).
Local Abbreviation make_event := (make_event df level).
Local Abbreviation events_of :=
  (events_of df level tolerance_pct max_retest_window takeoff_window takeoff_pct
     use_atr atr_mult).
Local Abbreviation scan_bar :=
  (scan_bar df level tolerance_pct max_retest_window takeoff_window takeoff_pct
     use_atr atr_mult).
Local Abbreviation takeoff_at := (takeoff_at df level takeoff_pct use_atr atr_mult).
Local Abbreviation find_takeoff :=
  (find_takeoff df level takeoff_window takeoff_pct use_atr atr_mult).

Lemma iloc_series (k : Z) : 0 <= k < len df -> exists ov, iloc a k = Ok ov.
Proof.
  intros B. exists (nth (Z.to_nat k) a None). apply iloc_inside. lia.
Qed.

(** The test of the takeoff loop inside the frame: it does not raise, and
    it compares the close with the threshold built from the value the
    series holds at the bar. *)
Lemma takeoff_at_on_series (k : Z) :
  0 <= k < len df ->
  exists ov,
    iloc a k = Ok ov
    /\ takeoff_at a k
       = Ok (at_pos close k
             >=? (if use_atr
                  then match ov with
                       | Some v => py_max (level * (of_int 1 + takeoff_pct))
                                     (level + atr_mult * v)
                       | None => level * (of_int 1 + takeoff_pct)
                       end
                  else level * (of_int 1 + takeoff_pct)))%num.
Proof.
  intros B. destruct (iloc_series B) as (ov & E). exists ov. split; [exact E|].
  unfold takeoff_at, threshold_at. destruct use_atr.
  - rewrite E. simpl. destruct ov; simpl; now rewrite iloc_close.
  - simpl. now rewrite iloc_close.
Qed.

Lemma find_takeoff_on_series (retest_idx : Z) :
  0 <= retest_idx ->
  exists found, find_takeoff a retest_idx = Ok found /\
    match found with
    | Some k =>
        retest_idx + 1 <= k <= Z.min (len df - 1) (retest_idx + takeoff_window)
        /\ takeoff_at a k = Ok true
    | None => True
    end.
Proof.
  intros B. unfold find_takeoff.
  destruct (@first_hit_range (takeoff_at a)
              (fun k => match takeoff_at a k with Ok b => b | Raise _ => false end)
              (retest_idx + 1)
              (Z.min (len df - 1) (retest_idx + takeoff_window) + 1))
    as (found & E & S).
  - intros x Bx. destruct (@takeoff_at_on_series x) as (ov & _ & Et); [lia|].
    now rewrite Et.
  - exists found. split; [exact E|]. destruct found as [k|]; [|exact I].
    destruct S as (Bk & Q & _). split; [lia|].
    destruct (@takeoff_at_on_series k) as (ov & _ & Et); [lia|].
    rewrite Et in *. now rewrite Q.
Qed.

Lemma detect_on_series (i : Z) :
  1 <= i < len df ->
  exists d, detect a i = Ok d /\
    match d with
    | Some (b, r, t) =>
        b = i /\ i < r < t /\ t < len df /\ takeoff_at a t = Ok true
    | None => True
    end.
Proof.
  intros B. unfold detect. rewrite (is_breakout_inside _ _ B). simpl.
  destruct (breakout_cond df level i); [|now exists None].
  destruct (@find_retest_least F num T df level tolerance_pct max_retest_window i)
    as (r & Er & Sr); [lia|].
  rewrite Er. simpl. destruct r as [r|]; [|now exists None].
  destruct Sr as (Br & _).
  destruct (@find_takeoff_on_series r) as (t & Et & St); [lia|].
  rewrite Et. simpl. destruct t as [t|]; [|now exists None].
  destruct St as (Bt & Ct).
  exists (Some (i, r, t)). split; [reflexivity|]. repeat split; auto; lia.
Qed.

Lemma make_event_on_series (b r t : Z) :
  0 <= b < len df -> 0 <= r < len df -> 0 <= t < len df ->
  exists ev, make_event a b r t = Ok ev /\ iloc a t = Ok (atr_at_takeoff ev).
Proof.
  intros Bb Br Bt.
  destruct (iloc_index df Bb) as (tb & Eb).
  destruct (iloc_index df Br) as (tr & Er).
  destruct (iloc_index df Bt) as (tt & Et).
  destruct (iloc_series Bt) as (ov & Ea).
  unfold make_event. rewrite (iloc_close df Bt), Eb, Er, Et, Ea. simpl.
  eexists. split; reflexivity.
Qed.

Lemma scan_bar_on_series (acc : list (Event F T)) (i : Z) :
  1 <= i < len df -> scan_bar a acc i = Ok (acc ++ events_of a [i]).
Proof.
  intros B. unfold scan_bar, events_of. cbn [flat_map].
  destruct (detect_on_series B) as (d & Ed & S). rewrite Ed. simpl.
  destruct d as [[[b r] t]|]; [|now rewrite app_nil_r].
  destruct S as (-> & Lt & Lt' & _).
  destruct (@make_event_on_series i r t) as (ev & Ev & _); try lia.
  rewrite Ev. reflexivity.
Qed.

Lemma for_each_scan_bar_on_series (l : list Z) (acc : list (Event F T)) :
  (forall i, In i l -> 1 <= i < len df) ->
  for_each l (scan_bar a) acc = Ok (acc ++ events_of a l).
Proof.
  revert acc. induction l as [|i l IH]; intros acc B.
  - simpl. now rewrite app_nil_r.
  - cbn [for_each]. rewrite (scan_bar_on_series acc (B i (or_introl eq_refl))).
    simpl bind. rewrite IH by (intros; apply B; now right).
    rewrite <- app_assoc. unfold events_of. cbn [flat_map].
    now rewrite app_nil_r.
Qed.

Lemma In_events_of_on_series (l : list Z) (ev : Event F T) :
  (forall i, In i l -> 1 <= i < len df) ->
  In ev (events_of a l) <->
  exists b r t, In b l /\ detect a b = Ok (Some (b, r, t)) /\ make_event a b r t = Ok ev.
Proof.
  intros B. unfold events_of. rewrite in_flat_map. split.
  - intros (i & Ii & Iev).
    destruct (detect_on_series (B i Ii)) as (d & Ed & S). rewrite Ed in Iev.
    destruct d as [[[b r] t]|]; [|contradiction].
    assert (b = i) as -> by apply S.
    destruct (make_event a i r t) as [ev'|] eqn:Em; [|contradiction].
    destruct Iev as [->|[]]. exists i, r, t. auto.
  - intros (b & r & t & Ib & Ed & Em). exists b. split; [exact Ib|].
    rewrite Ed, Em. now left.
Qed.

End ScannerOnSeries.

(** * The running sum in exact arithmetic *)

Section ExactRunningSum.

Variable g : Z -> Q.
Hypothesis g_nonneg : forall j, (0 <= g j)%Q.

Local Abbreviation sum_over lo hi := (fold_right Qplus 0%Q (map g (py_range lo hi))).

Lemma py_range_snoc lo hi : lo <= hi -> py_range lo (hi + 1) = py_range lo hi ++ [hi].
Proof.
  intros L. rewrite (@py_range_app lo hi (hi + 1)) by lia.
  rewrite (@py_range_cons hi (hi + 1)) by lia.
  now rewrite (@py_range_nil (hi + 1) (hi + 1)) by lia.
Qed.

Lemma fold_right_Qplus_snoc (xs : list Q) (x : Q) :
  (fold_right Qplus 0 (xs ++ [x]) == fold_right Qplus 0 xs + x)%Q.
Proof. induction xs as [|y xs IH]; simpl; [ring | rewrite IH; ring]. Qed.

Lemma sum_over_snoc lo hi :
  lo <= hi -> (sum_over lo (hi + 1) == sum_over lo hi + g hi)%Q.
Proof.
  intros L. rewrite py_range_snoc by lia. rewrite map_app. apply fold_right_Qplus_snoc.
Qed.

Lemma sum_over_cons lo hi :
  lo < hi -> sum_over lo hi = (g lo + sum_over (lo + 1) hi)%Q.
Proof. intros L. now rewrite py_range_cons by lia. Qed.

Lemma sum_over_constant lo hi (c : Q) :
  lo <= hi -> (forall j, lo <= j < hi -> (g j == c)%Q) ->
  (sum_over lo hi == inject_Z (hi - lo) * c)%Q.
Proof.
  intros L. remember (Z.to_nat (hi - lo)) as m eqn:Em.
  revert lo L Em. induction m as [|m IH]; intros lo L Em E.
  - assert (hi = lo) as -> by lia. rewrite py_range_nil by lia. simpl.
    replace (lo - lo) with 0 by lia. ring.
  - rewrite sum_over_cons by lia. rewrite IH by (try lia; intros; apply E; lia).
    rewrite (E lo) by lia.
    replace (hi - lo) with ((hi - (lo + 1)) + 1) by lia.
    rewrite inject_Z_plus. ring.
Qed.

Lemma add_mean_exact (v : Q) (st : MeanState Q) :
  (0 <= v)%Q ->
  add_mean (Some v) st
  = {| nobs := nobs st + 1;
       sum_x := (sum_x st + (v - compensation_add st))%Q;
       neg_ct := neg_ct st;
       compensation_add :=
         (sum_x st + (v - compensation_add st) - sum_x st - (v - compensation_add st))%Q;
       compensation_remove := compensation_remove st;
       num_consecutive_same_value :=
         (if match prev_value st with
             | Some p => Qeq_bool v p
             | None => false
             end
          then num_consecutive_same_value st + 1
          else 1);
       prev_value := Some v |}.
Proof.
  intros V. unfold add_mean. cbn [neqb nsignbit Q_Predicates nadd nsub Q_Number].
  rewrite (proj2 (Qeq_bool_iff v v) (Qeq_refl v)).
  now rewrite (proj2 (Qle_bool_iff 0 v) V).
Qed.

Lemma remove_mean_exact (v : Q) (st : MeanState Q) :
  (0 <= v)%Q ->
  remove_mean (Some v) st
  = {| nobs := nobs st - 1;
       sum_x := (sum_x st + (- v - compensation_remove st))%Q;
       neg_ct := neg_ct st;
       compensation_add := compensation_add st;
       compensation_remove :=
         (sum_x st + (- v - compensation_remove st) - sum_x st
          - (- v - compensation_remove st))%Q;
       num_consecutive_same_value := num_consecutive_same_value st;
       prev_value := prev_value st |}.
Proof.
  intros V. unfold remove_mean.
  cbn [neqb nsignbit Q_Predicates nadd nsub Q_Number nneg Q_Negation].
  rewrite (proj2 (Qeq_bool_iff v v) (Qeq_refl v)).
  now rewrite (proj2 (Qle_bool_iff 0 v) V).
Qed.

Variable values : Series Q.
Variable n : Z.
Hypothesis n_pos : 1 <= n.
Hypothesis values_g : forall j, 0 <= j < len values -> value_at values j = Some (g j).

(** A window set up afresh holds its one value. *)
Lemma exact_state_setup (i : Z) :
  0 <= i -> window_start n i = i ->
  exact_state g n i (add_mean (Some (g i)) (setup (Some (g i)))).
Proof.
  intros Bi Ws. rewrite add_mean_exact by apply g_nonneg.
  unfold exact_state. cbn [nobs sum_x neg_ct compensation_add compensation_remove
    prev_value num_consecutive_same_value setup of_int Q_Number].
  rewrite Ws. rewrite (proj2 (Qeq_bool_iff (g i) (g i)) (Qeq_refl _)).
  rewrite (@py_range_cons i (i + 1)) by lia.
  rewrite (@py_range_nil (i + 1) (i + 1)) by lia. cbn [map fold_right].
  repeat split; try lia; try ring.
  intros j Bj. assert (j = i) as -> by lia. reflexivity.
Qed.

Lemma exact_state_add (i : Z) (st : MeanState Q) :
  0 < i -> window_start n i = window_start n (i - 1) ->
  exact_state g n (i - 1) st ->
  exact_state g n i (add_mean (Some (g i)) st).
Proof.
  intros Bi Ws (Hn & Hs & Hneg & Hca & Hcr & Hp & Hnum & Hsame).
  rewrite add_mean_exact by apply g_nonneg.
  unfold exact_state. cbn [nobs sum_x neg_ct compensation_add compensation_remove
    prev_value num_consecutive_same_value].
  rewrite Hp. rewrite Ws.
  replace (i - 1 + 1) with i in * by lia.
  split; [lia|]. split.
  { rewrite sum_over_snoc by (unfold window_start; lia). rewrite Hs, Hca. ring. }
  split; [exact Hneg|]. split; [ring|]. split; [exact Hcr|]. split; [reflexivity|].
  destruct (Qeq_bool (g i) (g (i - 1))) eqn:E.
  - apply Qeq_bool_iff in E. split; [lia|]. intros j Bj.
    destruct (Z.eq_dec j i) as [->|Ne]; [reflexivity|].
    rewrite E. apply Hsame. lia.
  - split; [lia|]. intros j Bj. assert (j = i) as -> by lia. reflexivity.
Qed.

Lemma exact_state_remove_add (i : Z) (st : MeanState Q) :
  0 <= i - n -> 2 <= n ->
  exact_state g n (i - 1) st ->
  exact_state g n i (add_mean (Some (g i)) (remove_mean (Some (g (i - n))) st)).
Proof.
  intros Bi Bn (Hn & Hs & Hneg & Hca & Hcr & Hp & Hnum & Hsame).
  rewrite remove_mean_exact, add_mean_exact by apply g_nonneg.
  unfold exact_state. cbn [nobs sum_x neg_ct compensation_add compensation_remove
    prev_value num_consecutive_same_value].
  rewrite Hp.
  assert (window_start n i = i + 1 - n) as Ws by (unfold window_start; lia).
  assert (window_start n (i - 1) = i - n) as Ws' by (unfold window_start; lia).
  rewrite Ws' in *. rewrite Ws.
  replace (i - 1 + 1) with i in * by lia.
  split; [lia|]. split.
  { rewrite sum_over_snoc by lia. rewrite Hs, Hca, Hcr.
    rewrite (@sum_over_cons (i - n) i) by lia.
    replace (i - n + 1) with (i + 1 - n) by lia. ring. }
  split; [exact Hneg|]. split; [ring|]. split; [ring|]. split; [reflexivity|].
  destruct (Qeq_bool (g i) (g (i - 1))) eqn:E.
  - apply Qeq_bool_iff in E. split; [lia|]. intros j Bj.
    destruct (Z.eq_dec j i) as [->|Ne]; [reflexivity|].
    rewrite E. apply Hsame. lia.
  - split; [lia|]. intros j Bj. assert (j = i) as -> by lia. reflexivity.
Qed.

Lemma py_range_one (i : Z) : py_range i (i + 1) = [i].
Proof.
  rewrite (@py_range_cons i (i + 1)) by lia.
  now rewrite (@py_range_nil (i + 1) (i + 1)) by lia.
Qed.

(** One turn of the loop keeps the running sum equal to the sum of the
    window. *)
Lemma exact_state_slide (i : Z) (st : MeanState Q) :
  0 <= i < len values ->
  (i = 0 \/ exact_state g n (i - 1) st) ->
  exact_state g n i (slide values n i st).
Proof.
  intros Bi Hst. unfold slide.
  destruct (Z.eqb_spec i 0) as [->|Ne]; cbn [orb].
  - assert (window_start n 0 = 0) as Ws by (unfold window_start; lia).
    rewrite Ws. rewrite (py_range_one 0). cbn [fold_left].
    rewrite values_g by lia. now apply exact_state_setup.
  - destruct Hst as [|Hst]; [contradiction|].
    destruct (Z.leb_spec i (window_start n i)) as [Le|Gt].
    + assert (window_start n i = i) as Ws by (unfold window_start in *; lia).
      rewrite Ws, py_range_one. cbn [fold_left]. rewrite values_g by lia.
      apply exact_state_setup; [lia | exact Ws].
    + rewrite py_range_one. cbn [fold_left]. rewrite (values_g Bi).
      destruct (Z.le_gt_cases n i) as [Full|Short].
      * assert (window_start n i = i + 1 - n) as Ws by (unfold window_start; lia).
        assert (window_start n (i - 1) = i - n) as Ws' by (unfold window_start; lia).
        rewrite Ws, Ws'. replace (i + 1 - n) with (i - n + 1) by lia.
        rewrite py_range_one. cbn [fold_left]. rewrite values_g by lia.
        apply exact_state_remove_add; [lia | unfold window_start in Gt; lia | exact Hst].
      * assert (window_start n i = 0) as Ws by (unfold window_start; lia).
        assert (window_start n (i - 1) = 0) as Ws' by (unfold window_start; lia).
        rewrite Ws, Ws'. rewrite py_range_nil by lia. cbn [fold_left].
        apply exact_state_add; [lia | congruence | exact Hst].
Qed.

(** The value written for a window is its mean. *)
Lemma calc_mean_exact (i : Z) (st : MeanState Q) :
  0 <= i -> exact_state g n i st ->
  exists v, calc_mean 1 st = Some v
    /\ (v == sum_over (window_start n i) (i + 1) / inject_Z (i + 1 - window_start n i))%Q.
Proof.
  intros Bi (Hn & Hs & Hneg & Hca & Hcr & Hp & Hnum & Hsame).
  assert (1 <= nobs st) as Pos by (unfold window_start in Hn; lia).
  assert (0 < inject_Z (nobs st))%Q as PosQ.
  { replace 0%Q with (inject_Z 0) by reflexivity. rewrite <- Zlt_Qlt. lia. }
  unfold calc_mean. destruct (Z.leb_spec 1 (nobs st)); [|lia].
  destruct (Z.ltb_spec 0 (nobs st)); [|lia]. cbn [andb].
  destruct (Z.leb_spec (nobs st) (num_consecutive_same_value st)) as [Same|Mixed].
  - exists (g i). split; [exact Hp|].
    rewrite (@sum_over_constant (window_start n i) (i + 1) (g i)).
    + rewrite <- Hn. replace (i + 1 - window_start n i) with (nobs st) by lia.
      field. intros Z0. rewrite Z0 in PosQ. now apply Qlt_irrefl in PosQ.
    + unfold window_start. lia.
    + intros j Bj. apply Hsame. lia.
  - rewrite Hneg. change (0 =? 0) with true. cbn [andb of_int ndiv nlt Q_Number].
    assert (0 <= sum_x st / inject_Z (nobs st))%Q as NN.
    { rewrite Hs. apply Qle_shift_div_l; [exact PosQ|]. rewrite Qmult_0_l.
      clear -g_nonneg. induction (py_range (window_start n i) (i + 1)) as [|j l IH]; simpl.
      - apply Qle_refl.
      - replace 0%Q with (0 + 0)%Q by reflexivity.
        apply Qplus_le_compat; [apply g_nonneg | exact IH]. }
    change (inject_Z 0) with 0%Q.
    rewrite (proj2 (Qle_bool_iff _ _) NN). cbn [negb].
    destruct (Z.eqb_spec 0 (nobs st)); [lia|]. cbn [andb].
    eexists. split; [reflexivity|]. rewrite Hs, Hn. reflexivity.
Qed.

(** Position by position, the loop writes the mean of the window. *)
Lemma roll_mean_loop_exact (m : nat) (i : Z) (st : MeanState Q) (k : nat) :
  0 <= i -> len values - i = Z.of_nat m ->
  (i = 0 \/ exact_state g n (i - 1) st) ->
  (k < m)%nat ->
  exists v,
    nth_error (roll_mean_loop values n 1 (py_range i (len values)) st) k = Some (Some v)
    /\ (v == sum_over (window_start n (i + Z.of_nat k)) (i + Z.of_nat k + 1)
             / inject_Z (i + Z.of_nat k + 1 - window_start n (i + Z.of_nat k)))%Q.
Proof.
  revert i st k. induction m as [|m IH]; intros i st k Bi Em Hst Lk; [lia|].
  rewrite py_range_cons by lia. cbn [roll_mean_loop].
  assert (exact_state g n i (slide values n i st)) as Hst'
    by (apply exact_state_slide; [lia | exact Hst]).
  destruct k as [|k].
  - cbn [nth_error]. replace (i + Z.of_nat 0) with i by lia.
    destruct (calc_mean_exact Bi Hst') as (v & Ev & Hv).
    exists v. now rewrite Ev.
  - cbn [nth_error].
    destruct (IH (i + 1) (slide values n i st) k) as (v & Ev & Hv); try lia.
    { right. now replace (i + 1 - 1) with i by lia. }
    exists v. split; [exact Ev|].
    now replace (i + Z.of_nat (S k)) with (i + 1 + Z.of_nat k) by lia.
Qed.

End ExactRunningSum.

Lemma prep_values_exact (s : Series Q) : prep_values s = s.
Proof.
  unfold prep_values. cbn [nisinf Q_Predicates].
  rewrite <- (map_id s) at 2. apply map_ext. now intros [v|].
Qed.

Lemma value_at_true_range {F : Type} {num : Number F} {T : Type}
  (df : DataFrame F T) (j : Z) :
  0 <= j < len df -> value_at (true_range df) j = Some (TR df j).
Proof.
  intros B. unfold value_at. apply nth_error_nth.
  rewrite nth_error_true_range by (unfold len in B; lia).
  now rewrite Z2Nat.id by lia.
Qed.

Lemma fold_right_Qplus_nonneg (xs : list Q) :
  Forall (fun x => 0 <= x)%Q xs -> (0 <= fold_right Qplus 0 xs)%Q.
Proof.
  induction 1 as [|x xs X _ IH]; simpl; [apply Qle_refl|].
  replace 0%Q with (0 + 0)%Q by reflexivity. now apply Qplus_le_compat.
Qed.

Lemma fold_left_Qplus_fold_right (xs : list Q) (acc : Q) :
  (fold_left Qplus xs acc == acc + fold_right Qplus 0 xs)%Q.
Proof.
  revert acc. induction xs as [|x xs IH]; intros acc; simpl; [ring|].
  rewrite IH. ring.
Qed.

(** In exact arithmetic the series of the estimator holds, at every
    position, the mean of the true range over the window that ends
    there. *)
Lemma atr_pandas_exact {T} (df : DataFrame Q T) (W : Z) :
  1 <= W ->
  exists a,
    atr_pandas df W = Ok a
    /\ len a = len df
    /\ forall k, 0 <= k < len df ->
         exists v,
           iloc a k = Ok (Some v)
           /\ (v == fold_right Qplus 0
                      (map (TR df) (py_range (Z.max 0 (k - W + 1)) (k + 1)))
                    / inject_Z (k - Z.max 0 (k - W + 1) + 1))%Q.
Proof.
  intros HW. destruct (atr_pandas_returns df HW) as (a & Ea & La).
  exists a. split; [exact Ea|]. split; [exact La|].
  intros k Bk. unfold atr_pandas in Ea. destruct (Z.ltb_spec W 1); [lia|].
  injection Ea as <-. rewrite prep_values_exact. unfold roll_mean.
  assert (len (true_range df) = len df) as Lt
    by (unfold len; now rewrite length_true_range).
  destruct (@roll_mean_loop_exact (TR df) (@TR_nonneg T df) (true_range df) W HW
              (fun j B => value_at_true_range df (eq_ind _ (fun l => 0 <= j < l) B _ Lt))
              (length df) 0 (setup None) (Z.to_nat k)) as (v & Ev & Hv).
  - lia.
  - rewrite Lt. unfold len. lia.
  - now left.
  - unfold len in Bk. lia.
  - exists v. split.
    + apply iloc_nth_error; [lia | exact Ev].
    + rewrite Hv. unfold window_start.
      replace (0 + Z.of_nat (Z.to_nat k)) with k by lia.
      replace (k + 1 - W) with (k - W + 1) by lia.
      replace (k + 1 - Z.max 0 (k - W + 1)) with (k - Z.max 0 (k - W + 1) + 1) by lia.
      reflexivity.
Qed.

(** In exact arithmetic the running sum and the sum taken afresh give the
    same series, value by value. *)
Lemma atr_pandas_agrees_with_atr_exact {T} (df : DataFrame Q T) (W : Z) :
  1 <= W ->
  exists a a',
    atr_pandas df W = Ok a /\ atr df W = Ok a'
    /\ len a = len a'
    /\ forall k, 0 <= k < len df ->
         exists v v', iloc a k = Ok (Some v) /\ iloc a' k = Ok (Some v') /\ (v == v')%Q.
Proof.
  intros HW.
  destruct (atr_pandas_exact df HW) as (a & Ea & La & Ha).
  destruct (@atr_series Q _ T df W HW) as (a' & Ea' & La' & Ha').
  exists a, a'. split; [exact Ea|]. split; [exact Ea'|]. split; [congruence|].
  intros k Bk. destruct (Ha k Bk) as (v & Ev & Hv).
  exists v, (rolling_TR_mean df W k). split; [exact Ev|]. split; [now apply Ha'|].
  rewrite Hv. unfold rolling_TR_mean, mean, total. cbn [nadd ndiv of_int Q_Number].
  rewrite fold_left_Qplus_fold_right. unfold len.
  rewrite length_map, py_range_length.
  replace (Z.of_nat (Z.to_nat (k + 1 - Z.max 0 (k - W + 1))))
    with (k - Z.max 0 (k - W + 1) + 1) by lia.
  apply Qdiv_comp; [ring | reflexivity].
Qed.

(** C4, in exact arithmetic: the series of the estimator is as long as the
    frame; position [k] holds a value, equal to the sum of the true range
    over the bars [max(0, k-W+1) .. k] divided by their number; the true
    range of bar 0 is [|high - low|] and that of a later bar is the
    largest of [|high - low|], [|high - previous close|] and
    [|low - previous close|]; and no value is negative. *)
Theorem atr_is_exact_mean_of_true_range {T} (df : DataFrame Q T) (W : Z) :
  1 <= W ->
  let high := map (@High Q T) df in
  let low := map (@Low Q T) df in
  let close := map (@Close Q T) df in
  exists a,
    atr_pandas df W = Ok a
    /\ len a = len df
    /\ forall k, 0 <= k < len df ->
         let first := Z.max 0 (k - W + 1) in
         let window := map (TR df) (py_range first (k + 1)) in
         exists v,
           iloc a k = Ok (Some v)
           /\ (v == fold_right Qplus 0 window / inject_Z (k - first + 1))%Q
           /\ TR df k
              = (if k =? 0 then Qabs (at_pos high 0 - at_pos low 0)
                 else Qmax
                        (Qmax (Qabs (at_pos high k - at_pos low k))
                              (Qabs (at_pos high k - at_pos close (k - 1))))
                        (Qabs (at_pos low k - at_pos close (k - 1))))%Q
           /\ (0 <= v)%Q.
Proof.
  intros HW high low close.
  destruct (atr_pandas_exact df HW) as (a & Ea & La & Ha).
  exists a. split; [exact Ea|]. split; [exact La|].
  intros k Bk first window. destruct (Ha k Bk) as (v & Ev & Hv).
  exists v. split; [exact Ev|]. split; [exact Hv|]. split.
  - unfold TR. fold high. fold low. fold close.
    destruct (k =? 0); [reflexivity|]. now rewrite !py_max_Qmax.
  - rewrite Hv. apply Qle_shift_div_l.
    + replace 0%Q with (inject_Z 0) by reflexivity. rewrite <- Zlt_Qlt. lia.
    + rewrite Qmult_0_l. apply fold_right_Qplus_nonneg.
      apply Forall_forall. intros x Ix. apply in_map_iff in Ix as (i & <- & _).
      apply TR_nonneg.
Qed.

(** On the long frame with a window of 14 bars, position 16 holds the mean
    of the true range over the bars 3 .. 16, which is 127/140. *)
Lemma atr_is_exact_mean_of_true_range_long_frame :
  1 <= 14
  /\ exists a v,
       atr_pandas long_frame_exact 14 = Ok a
       /\ len a = 18
       /\ iloc a 16 = Ok (Some v)
       /\ (v == 127 # 140)%Q
       /\ (0 <= v)%Q.
Proof.
  split; [lia|].
  destruct (@atr_is_exact_mean_of_true_range Z long_frame_exact 14) as (a & Ea & La & Ha);
    [lia|].
  destruct (Ha 16) as (v & Ev & Hv & _ & Pv); [vm_compute; split; congruence|].
  exists a, v. split; [exact Ea|]. split; [exact La|]. split; [exact Ev|].
  split; [|exact Pv].
  rewrite Hv. vm_compute. reflexivity.
Defined.

(** C4 as the specification states it fails on binary64.  On three bars at
    low prices the series holds at position 2 a value that is not the mean
    of the three true ranges as binary64 computes it; and a first bar with
    an infinite high leaves position 0 without a value. *)
Lemma atr_differs_from_mean_on_binary64 :
  ~ (exists a v,
       atr_pandas small_prices 14 = Ok a
       /\ iloc a 2 = Ok (Some v)
       /\ PrimFloat.eqb v (rolling_TR_mean small_prices 14 2) = true)
  /\ ~ (exists a v,
          atr_pandas infinite_high 14 = Ok a
          /\ iloc a 0 = Ok (Some v)).
Proof.
  split.
  - intros (a & v & Ea & Ev & E). vm_compute in Ea. injection Ea as <-.
    vm_compute in Ev. injection Ev as <-. vm_compute in E. discriminate.
  - intros (a & v & Ea & Ev). vm_compute in Ea. injection Ea as <-.
    vm_compute in Ev. discriminate.
Qed.

(** * The series the scanner consumes *)

Section ScanOnPandasSeries.
Context {F : Type} {num : Number F} {neg : Negation F} {ins : Predicates F} {T : Type}.

Variable df : DataFrame F T.
Variable level : F.
Variable tolerance_pct : F.
Variable max_retest_window : Z.
Variable takeoff_window : Z.
Variable takeoff_pct : F.
Variable use_atr : bool.
Variable atr_mult : F.

Local Abbreviation a14 := (roll_mean (prep_values (true_range df)) 14 1).
Local Abbreviation detect :=
  (detect df level tolerance_pct max_retest_window takeoff_window takeoff_pct
     use_atr atr_mult).
Local Abbreviation events_of :=
  (events_of df level tolerance_pct max_retest_window takeoff_window takeoff_pct
     use_atr atr_mult).

Lemma len_a14 : len a14 = len df.
Proof.
  rewrite len_roll_mean. unfold prep_values, len.
  now rewrite length_map, length_true_range.
Qed.

Lemma atr_pandas_14 : atr_pandas df 14 = Ok a14.
Proof. reflexivity. Qed.

(** The scan does not raise; its rows are those of the candidates that
    complete on the series of window 14, in the order of their bars. *)
Lemma find_breakout_retests_pandas_rows :
  find_breakout_retests_pandas df level tolerance_pct max_retest_window takeoff_window
    takeoff_pct use_atr atr_mult
  = Ok (events_of a14 (py_range 1 (len df))).
Proof.
  unfold find_breakout_retests_pandas. rewrite atr_pandas_14. cbn [bind].
  rewrite (@for_each_scan_bar_on_series F num T df level tolerance_pct max_retest_window
             takeoff_window takeoff_pct use_atr atr_mult a14 len_a14).
  - reflexivity.
  - intros i Ii. now apply In_py_range in Ii.
Qed.

(** A row of a completed candidate carries the value of the series at its
    takeoff bar, and the takeoff close passed the threshold built from
    that value. *)
Lemma row_on_series (a : Series F) (b r t : Z) (ev : Event F T) :
  len a = len df ->
  1 <= b < len df ->
  detect a b = Ok (Some (b, r, t)) ->
  make_event df level a b r t = Ok ev ->
  b < r < t /\ t < len df
  /\ iloc a t = Ok (atr_at_takeoff ev)
  /\ (at_pos (close df) t
      >=? (if use_atr
           then match atr_at_takeoff ev with
                | Some v => py_max (level * (of_int 1 + takeoff_pct))
                              (level + atr_mult * v)
                | None => level * (of_int 1 + takeoff_pct)
                end
           else level * (of_int 1 + takeoff_pct)))%num = true.
Proof.
  intros La Bb Ed Em.
  destruct (@detect_on_series F num T df level tolerance_pct max_retest_window
              takeoff_window takeoff_pct use_atr atr_mult a La b Bb) as (d & Ed' & S).
  rewrite Ed in Ed'. injection Ed' as <-. destruct S as (_ & Lt & Lt' & Tk).
  destruct (@make_event_on_series F num T df level a La b r t) as (ev' & Em' & Ia);
    try lia.
  rewrite Em in Em'. injection Em' as <-.
  destruct (@takeoff_at_on_series F num T df level takeoff_pct use_atr atr_mult a La t)
    as (ov & Io & Et); [lia|].
  rewrite Ia in Io. injection Io as <-. rewrite Tk in Et. injection Et as Et.
  repeat split; try lia; [exact Ia | now symmetry].
Qed.

End ScanOnPandasSeries.

(** C10: whatever the arguments of the scan, the series it consumes is the
    one the estimator computes with a window of 14 bars.  On every number
    type, binary64 among them: the scan does not raise; its rows are
    exactly the rows of the candidates, breakout bar [b], retest bar [r]
    and takeoff bar [t], that complete on that series; each such row
    carries in [atr_at_takeoff] what the series holds at [t]; and the
    takeoff close passed the threshold, which with the gate on is built
    from that same value.  In exact arithmetic that value is the sum of the
    true range over the bars [max(0, t-13) .. t] divided by their number. *)
Theorem scan_consumes_the_14_bar_series :
  (forall (F : Type) (num : Number F) (neg : Negation F) (ins : Predicates F) (T : Type)
     (df : DataFrame F T) (level tolerance_pct : F)
     (max_retest_window takeoff_window : Z) (takeoff_pct : F) (use_atr : bool)
     (atr_mult : F),
     let a := roll_mean (prep_values (true_range df)) 14 1 in
     exists evs,
       find_breakout_retests_pandas df level tolerance_pct max_retest_window
         takeoff_window takeoff_pct use_atr atr_mult = Ok evs
       /\ atr_pandas df 14 = Ok a
       /\ (forall ev,
             In ev evs <->
             exists b r t,
               1 <= b < len df
               /\ detect df level tolerance_pct max_retest_window takeoff_window
                    takeoff_pct use_atr atr_mult a b = Ok (Some (b, r, t))
               /\ make_event df level a b r t = Ok ev)
       /\ (forall b r t ev,
             1 <= b < len df ->
             detect df level tolerance_pct max_retest_window takeoff_window
               takeoff_pct use_atr atr_mult a b = Ok (Some (b, r, t)) ->
             make_event df level a b r t = Ok ev ->
             b < r < t /\ t < len df
             /\ iloc a t = Ok (atr_at_takeoff ev)
             /\ (at_pos (close df) t
                 >=? (if use_atr
                      then match atr_at_takeoff ev with
                           | Some v => py_max (level * (of_int 1 + takeoff_pct))
                                         (level + atr_mult * v)
                           | None => level * (of_int 1 + takeoff_pct)
                           end
                      else level * (of_int 1 + takeoff_pct)))%num = true))
  /\ (forall (T : Type) (df : DataFrame Q T) (level tolerance_pct : Q)
        (max_retest_window takeoff_window : Z) (takeoff_pct : Q) (use_atr : bool)
        (atr_mult : Q) (b r t : Z) (ev : Event Q T),
        let a := roll_mean (prep_values (true_range df)) 14 1 in
        1 <= b < len df ->
        detect df level tolerance_pct max_retest_window takeoff_window
          takeoff_pct use_atr atr_mult a b = Ok (Some (b, r, t)) ->
        make_event df level a b r t = Ok ev ->
        exists v,
          atr_at_takeoff ev = Some v
          /\ (v == fold_right Qplus 0
                     (map (TR df) (py_range (Z.max 0 (t - 13)) (t + 1)))
                   / inject_Z (t - Z.max 0 (t - 13) + 1))%Q).
Proof.
  split.
  - intros F num neg ins T df level tolerance_pct max_retest_window takeoff_window
      takeoff_pct use_atr atr_mult a.
    exists (events_of df level tolerance_pct max_retest_window takeoff_window
              takeoff_pct use_atr atr_mult a (py_range 1 (len df))).
    split; [apply find_breakout_retests_pandas_rows|].
    split; [reflexivity|]. split.
    + intros ev.
      rewrite (@In_events_of_on_series F num T df level tolerance_pct max_retest_window
                 takeoff_window takeoff_pct use_atr atr_mult a (len_a14 df))
        by (intros i Ii; now apply In_py_range in Ii).
      split; intros (b & r & t & H1 & H2 & H3); exists b, r, t.
      * apply In_py_range in H1. auto.
      * split; [now apply In_py_range | auto].
    + intros b r t ev Bb Ed Em.
      exact (@row_on_series F num T df level tolerance_pct max_retest_window
               takeoff_window takeoff_pct use_atr atr_mult a b r t ev
               (len_a14 df) Bb Ed Em).
  - intros T df level tolerance_pct max_retest_window takeoff_window takeoff_pct
      use_atr atr_mult b r t ev a Bb Ed Em.
    destruct (@row_on_series Q _ T df level tolerance_pct max_retest_window takeoff_window
                takeoff_pct use_atr atr_mult a b r t ev (len_a14 df) Bb Ed Em)
      as (Lt & Lt' & Ia & _).
    destruct (@atr_pandas_exact T df 14) as (a' & Ea & _ & Ha); [lia|].
    rewrite atr_pandas_14 in Ea. injection Ea as <-.
    destruct (Ha t) as (v & Ev & Hv); [lia|].
    exists v. split.
    + fold a in Ev. rewrite Ia in Ev. now injection Ev.
    + rewrite Hv. replace (t - 14 + 1) with (t - 13) by lia. reflexivity.
Qed.

(** On the long frame, gate on: the one row takes off at bar 16 and carries
    the value of the series of window 14 there, which is not the value of
    the series of window 13, 15 or 17. *)
Lemma scan_consumes_the_14_bar_series_long_frame :
  find_breakout_retests_pandas long_frame 100%float 0.001%float 20 20 0.005%float
    true 1.25%float = Ok [long_frame_event]
  /\ (exists a,
        atr_pandas long_frame 14 = Ok a
        /\ detect long_frame 100%float 0.001%float 20 20 0.005%float true 1.25%float a 14
           = Ok (Some (14, 15, 16))
        /\ iloc a 16 = Ok (atr_at_takeoff long_frame_event))
  /\ (forall W a,
        In W [13; 15; 17] -> atr_pandas long_frame W = Ok a ->
        exists v, iloc a 16 = Ok (Some v)
          /\ match atr_at_takeoff long_frame_event with
             | Some v14 => PrimFloat.eqb v v14 = false
             | None => False
             end).
Proof.
  destruct (proj1 scan_consumes_the_14_bar_series float _ _ _ Z long_frame
              100%float 0.001%float 20 20 0.005%float true 1.25%float)
    as (evs & E & Ea & Hin & Hrow).
  assert (detect long_frame 100%float 0.001%float 20 20 0.005%float true 1.25%float
            (roll_mean (prep_values (true_range long_frame)) 14 1) 14
          = Ok (Some (14, 15, 16))) as Ed by (vm_compute; reflexivity).
  assert (make_event long_frame 100%float
            (roll_mean (prep_values (true_range long_frame)) 14 1) 14 15 16
          = Ok long_frame_event) as Em by (vm_compute; reflexivity).
  assert (1 <= 14 < len long_frame) as B by (vm_compute; split; congruence).
  destruct (Hrow 14 15 16 long_frame_event B Ed Em) as (_ & _ & Ia & _).
  split; [vm_compute; reflexivity|]. split.
  - eexists. split; [exact Ea|]. split; [exact Ed | exact Ia].
  - intros W a [<-|[<-|[<-|[]]]] EW; vm_compute in EW; injection EW as <-;
      eexists; (split; [vm_compute; reflexivity | vm_compute; reflexivity]).
Defined.
